(** * tomviz: the ruler module (tomviz/ModuleRuler.cxx)

    A shallow embedding of [tomviz::ModuleRuler].  The class is an adapter
    between the application and three host frameworks: the ParaView proxy
    layer (proxies, properties, the pipeline controller), Qt (the line
    widget and its signals) and pugixml (the state document).  The host
    objects are modelled as explicit state: a store of proxies addressed
    by pointer, a registry kept by the pipeline controller, and the
    document as a tree.  A C++ pointer is an [option] of an address and a
    member function is a function on the host state and the module state.
    A result of [None] stands for behaviour the C++ leaves undefined (a
    null dereference, a read outside an array). *)

From Stdlib Require Import ZArith String Ascii List DecimalString DecimalZ.
From stdpp Require Import base option list gmap strings fin_maps.

Local Open Scope Z_scope.

(** ** pugixml: the document tree *)

Module pugi.

(** An element with its name, its attributes in document order and its
    children in document order.  Attribute values are text, as in the
    library. *)
#[local] Unset Elimination Schemes.
Inductive xml_node : Type :=
| Element (nm : string) (attrs : list (string * string)) (kids : list xml_node).

#[local] Set Elimination Schemes.

Definition name (n : xml_node) : string :=
  match n with Element nm _ _ => nm end.

Definition attributes (n : xml_node) : list (string * string) :=
  match n with Element _ attrs _ => attrs end.

Definition children (n : xml_node) : list xml_node :=
  match n with Element _ _ kids => kids end.

(** A node handle is a nullable reference: [None] is the null handle
    that the lookups return when nothing matches. *)
Definition handle : Type := option xml_node.

Definition has_name (nm : string) (n : xml_node) : bool :=
  bool_decide (name n = nm).

(** [xml_node::child(name)]: the first child with that name. *)
Definition child (n : handle) (nm : string) : handle :=
  n ≫= λ e, List.find (has_name nm) (children e).

(** [xml_node::attribute(name)]: the first attribute with that name;
    the result is the attribute's text. *)
Definition attribute (n : handle) (nm : string) : option string :=
  n ≫= λ e, snd <$> List.find (λ kv, bool_decide (fst kv = nm)) (attributes e).

(** [xml_node::append_child], with the new child given whole. *)
Definition append_child (parent : xml_node) (c : xml_node) : xml_node :=
  match parent with
  | Element nm attrs kids => Element nm attrs (kids ++ [c])
  end.

(** [append_attribute(name).set_value(text)]. *)
Definition append_attribute (n : xml_node) (k v : string) : xml_node :=
  match n with
  | Element nm attrs kids => Element nm (attrs ++ [(k, v)]) kids
  end.

(** [xml_attribute::set_value(bool)] writes one of two words. *)
Definition bool_text (b : bool) : string :=
  if b then "true"%string else "false"%string.

(** [xml_attribute::as_bool()]: only the first character is looked at. *)
Definition as_bool (v : string) : bool :=
  match v with
  | EmptyString => false
  | String c _ =>
      bool_decide (c = "1"%char) || bool_decide (c = "t"%char)
      || bool_decide (c = "T"%char) || bool_decide (c = "y"%char)
      || bool_decide (c = "Y"%char)
  end.

End pugi.

(** ** The host frameworks *)

Section Ruler.

(** The C++ [double].  The module only stores and copies such values, so
    the type is left open. *)
Context {double : Type}.

(** *** ParaView proxies *)

(** The value of a vector property, as [vtkSMPropertyHelper] sees it. *)
Inductive PropValue : Type :=
| PDouble (xs : list double)
| PInt (xs : list Z).

(** A proxy: the properties it holds by name, and, for the ruler
    representation, the label format of its client side object. *)
Record Proxy : Type := mkProxy {
  px_properties : gmap string PropValue;
  px_labelFormat : string
}.

(** The six numbers filled in by [vtkDataSet::GetBounds], in its order:
    [(xmin, xmax, ymin, ymax, zmin, zmax)]. *)
Record Bounds : Type := mkBounds {
  bounds0 : double; bounds1 : double;
  bounds2 : double; bounds3 : double;
  bounds4 : double; bounds5 : double
}.

Definition Point : Type := (double * double * double)%type.

(** The image behind a data source.  [FindPoint] is the grid's own
    nearest point lookup: the id of the sample, or a negative id when
    there is none.  [img_scalars] is the active scalar array, null when
    the image has none. *)
Record vtkImageData : Type := mkImage {
  img_bounds : Bounds;
  FindPoint : Point → Z;
  img_scalars : option (list double)
}.

(** [vtkDataArray::GetTuple1]: the array is read at the id without a
    range check, so an id outside the array has no defined value. *)
Definition GetTuple1 (scalars : list double) (id : Z) : option double :=
  if bool_decide (0 ≤ id) then scalars !! Z.to_nat id else None.

(** A [DataSource]: the output of its producer (null when the producer
    has no image yet) and the unit text of [getUnits(0)]. *)
Record DataSource : Type := mkDataSource {
  ds_output : option vtkImageData;
  ds_units : string
}.

(** The state of the host: the live proxies by address, the proxies the
    pipeline controller has registered, the next free address, and the
    live data sources by address. *)
Record Host : Type := mkHost {
  proxies : gmap positive Proxy;
  registered : gset positive;
  next_proxy : positive;
  dataSources : gmap positive DataSource
}.

Definition set_proxies (f : gmap positive Proxy → gmap positive Proxy)
    (h : Host) : Host :=
  mkHost (f (proxies h)) (registered h) (next_proxy h) (dataSources h).

Definition set_registered (f : gset positive → gset positive)
    (h : Host) : Host :=
  mkHost (proxies h) (f (registered h)) (next_proxy h) (dataSources h).

(** Dereferencing a proxy pointer: null and dangling pointers have no
    target. *)
Definition deref (h : Host) (p : option positive) : option Proxy :=
  p ≫= λ a, proxies h !! a.

(** [vtkSMPropertyHelper(proxy, name).Set(...)] followed by the push of
    [UpdateVTKObjects]. *)
Definition SetProperty (h : Host) (p : option positive) (nm : string)
    (v : PropValue) : option Host :=
  a ← p;
  px ← proxies h !! a;
  Some (set_proxies
          <[a := mkProxy (<[nm := v]> (px_properties px)) (px_labelFormat px)]> h).

Definition GetProperty (h : Host) (p : option positive) (nm : string)
    : option PropValue :=
  px ← deref h p; px_properties px !! nm.

(** [vtkSMPropertyHelper(proxy, name).Get(values, 3)]: the first three
    elements; with fewer the array is left partly unset. *)
Definition GetPoint (h : Host) (p : option positive) (nm : string)
    : option Point :=
  v ← GetProperty h p nm;
  match v with
  | PDouble (x :: y :: z :: _) => Some (x, y, z)
  | _ => None
  end.

(** [vtkSMPropertyHelper(proxy, name).GetAsInt()]: the first element, and
    0 for a property that is absent or empty. *)
Definition GetAsInt (h : Host) (p : option positive) (nm : string)
    : option Z :=
  px ← deref h p;
  Some match px_properties px !! nm with
       | Some (PInt (i :: _)) => i
       | _ => 0
       end.

(** [vtkSMSessionProxyManager::NewProxy]: a new proxy at a fresh address,
    with no property set yet. *)
Definition NewProxy (h : Host) : Host * positive :=
  let a := next_proxy h in
  (mkHost (<[a := mkProxy ∅ ""]> (proxies h)) (registered h)
          (Pos.succ a) (dataSources h), a).

(** [RegisterPipelineProxy] and [UnRegisterProxy] of the pipeline
    controller; unregistering a null pointer does nothing. *)
Definition RegisterPipelineProxy (h : Host) (a : positive) : Host :=
  set_registered (λ r, {[a]} ∪ r) h.

Definition UnRegisterProxy (h : Host) (p : option positive) : Host :=
  match p with
  | Some a => set_registered (λ r, r ∖ {[a]}) h
  | None => h
  end.

(** *** Qt: the line widget and the signals *)

(** The [pqLinePropertyWidget] of the panel: whether its 3D widget is
    shown, and whether its signal [widgetVisibilityUpdated(bool)] is
    connected to the slot [updateShowLine(bool)] of the module. *)
Record LineWidget : Type := mkLineWidget {
  widgetVisible : bool;
  updateShowLine_connected : bool
}.

(** What the module sends out: its signals and the warnings it logs. *)
Inductive Event : Type :=
| newEndpointData (val0 val1 : double)
| renderNeeded
| qWarning (msg : string).

(** *** The module *)

(** The members of the base class [Module] that the ruler reads. *)
Record Module : Type := mkModule {
  m_activeDataSource : option positive;
  m_view : option positive
}.

(** [Module::dataSource()]. *)
Definition dataSource (b : Module) : option positive := m_activeDataSource b.

(** The members of [ModuleRuler].  [dataChanged_connected] is the data
    source whose signal [dataChanged] is connected to [updateUnits]. *)
Record ModuleRuler : Type := mkModuleRuler {
  base : Module;
  m_rulerSource : option positive;
  m_representation : option positive;
  m_widget : option LineWidget;
  m_showLine : bool;
  dataChanged_connected : option positive
}.

Definition set_base (b : Module) (m : ModuleRuler) : ModuleRuler :=
  mkModuleRuler b (m_rulerSource m) (m_representation m) (m_widget m)
                (m_showLine m) (dataChanged_connected m).

Definition set_rulerSource (p : option positive) (m : ModuleRuler) : ModuleRuler :=
  mkModuleRuler (base m) p (m_representation m) (m_widget m)
                (m_showLine m) (dataChanged_connected m).

Definition set_representation (p : option positive) (m : ModuleRuler) : ModuleRuler :=
  mkModuleRuler (base m) (m_rulerSource m) p (m_widget m)
                (m_showLine m) (dataChanged_connected m).

Definition set_widget (w : option LineWidget) (m : ModuleRuler) : ModuleRuler :=
  mkModuleRuler (base m) (m_rulerSource m) (m_representation m) w
                (m_showLine m) (dataChanged_connected m).

Definition set_showLine (b : bool) (m : ModuleRuler) : ModuleRuler :=
  mkModuleRuler (base m) (m_rulerSource m) (m_representation m) (m_widget m)
                b (dataChanged_connected m).

Definition set_dataChanged (d : option positive) (m : ModuleRuler) : ModuleRuler :=
  mkModuleRuler (base m) (m_rulerSource m) (m_representation m) (m_widget m)
                (m_showLine m) d.

(** *** The collaborators outside [ModuleRuler.cxx]

    [Module_initialize] is the base class contract run first by
    [initialize].  [Show_accepts] tells whether the controller can show a
    source in the given view.  [widgetVisibilityUpdated_emitted old new]
    tells whether [setWidgetVisible(new)] on a widget whose visibility is
    [old] emits its signal.  [tomviz_serialize] and [tomviz_deserialize]
    are the proxy state helpers of [Utilities.h]: the first writes the
    listed properties of a proxy below a node, the second loads the state
    found below a node into a proxy; both answer with a success flag. *)
Class Environment : Type := mkEnvironment {
  Module_initialize : Module → option positive → option positive → bool * Module;
  Show_accepts : option positive → bool;
  widgetVisibilityUpdated_emitted : bool → bool → bool;
  tomviz_serialize :
    Host → option positive → pugi.xml_node → list string → bool * pugi.xml_node;
  tomviz_deserialize :
    Host → option positive → pugi.handle → bool * Host
}.

Context {env : Environment}.

(** [controller->Show(source, 0, view)]: the representation of the source
    in the view, a new registered proxy whose [Visibility] is on, or null
    when the view cannot show it. *)
Definition Show (h : Host) (source : positive) (view : option positive)
    : Host * option positive :=
  if Show_accepts view then
    let rep := next_proxy h in
    (mkHost (<[rep := mkProxy {["Visibility"%string := PInt [1]]} ""]> (proxies h))
            ({[rep]} ∪ registered h) (Pos.succ rep) (dataSources h),
     Some rep)
  else (h, None).

(** [ModuleRuler::updateShowLine]. *)
Definition updateShowLine (m : ModuleRuler) (show : bool) : ModuleRuler :=
  set_showLine show m.

(** [m_widget->setWidgetVisible(val)] on the widget [w] of the module: the
    widget takes the new visibility, and when the signal is emitted and
    connected the slot runs. *)
Definition setWidgetVisible (m : ModuleRuler) (w : LineWidget) (val : bool)
    : ModuleRuler :=
  let m1 := set_widget (Some (mkLineWidget val (updateShowLine_connected w))) m in
  if updateShowLine_connected w
     && widgetVisibilityUpdated_emitted (widgetVisible w) val
  then updateShowLine m1 val
  else m1.

(** [ModuleRuler::updateUnits]: the label format is ["%-#6.3g %1"] with
    the place marker replaced by the units of the data source. *)
Definition updateUnits (h : Host) (m : ModuleRuler) : option Host :=
  a ← dataSource (base m);
  source ← dataSources h !! a;
  let units := ds_units source in
  r ← m_representation m;
  rep ← proxies h !! r;
  let labelFormat := ("%-#6.3g " +:+ units)%string in
  Some (set_proxies <[r := mkProxy (px_properties rep) labelFormat]> h).

(** [ModuleRuler::initialize]. *)
Definition initialize (h : Host) (m : ModuleRuler)
    (data view : option positive) : option (bool * Host * ModuleRuler) :=
  let '(ok, b) := Module_initialize (base m) data view in
  let m := set_base b m in
  if negb ok then Some (false, h, m)
  else
    d ← data;
    source ← dataSources h !! d;
    img ← ds_output source;
    let bounds := img_bounds img in
    let boundsMin := [bounds0 bounds; bounds2 bounds; bounds4 bounds] in
    let boundsMax := [bounds1 bounds; bounds3 bounds; bounds5 bounds] in
    let '(h, ruler) := NewProxy h in
    let m := set_rulerSource (Some ruler) m in
    h ← SetProperty h (m_rulerSource m) "Point1" (PDouble boundsMin);
    h ← SetProperty h (m_rulerSource m) "Point2" (PDouble boundsMax);
    let h := RegisterPipelineProxy h ruler in
    let '(h, rep) := Show h ruler view in
    let m := set_representation rep m in
    _ ← deref h (m_representation m);
    h ← updateUnits h m;
    let m := set_dataChanged data m in
    Some (bool_decide (is_Some (m_representation m))
          && bool_decide (is_Some (m_rulerSource m)), h, m).

(** [ModuleRuler::finalize].  The two references that the module and the
    controller hold are given up; whether the two objects die with them
    depends on who else holds one, which [ModuleRuler.cxx] does not show,
    so the store of proxies is not part of what is stated of
    [finalize]. *)
Definition finalize (h : Host) (m : ModuleRuler) : bool * Host * ModuleRuler :=
  let h := UnRegisterProxy h (m_representation m) in
  let h := UnRegisterProxy h (m_rulerSource m) in
  let m := set_representation None m in
  let m := set_rulerSource None m in
  (true, h, m).

(** [ModuleRuler::~ModuleRuler]. *)
Definition destructor (h : Host) (m : ModuleRuler) : Host * ModuleRuler :=
  let '(_, h, m) := finalize h m in (h, m).

(** [ModuleRuler::addToPanel], as far as the module is concerned: a new
    widget on the ruler source, shown as [m_showLine] says, with its
    signal connected to [updateShowLine]. *)
Definition addToPanel (h : Host) (m : ModuleRuler) : option ModuleRuler :=
  _ ← deref h (m_rulerSource m);
  let w := mkLineWidget false false in
  let m := setWidgetVisible (set_widget (Some w) m) w (m_showLine m) in
  let w := mkLineWidget (m_showLine m) true in
  let m := set_widget (Some w) m in
  Some (setWidgetVisible m w (m_showLine m)).

(** [ModuleRuler::prepareToRemoveFromPanel]. *)
Definition prepareToRemoveFromPanel (m : ModuleRuler) : ModuleRuler :=
  match m_widget m with
  | Some w => set_widget (Some (mkLineWidget (widgetVisible w) false)) m
  | None => m
  end.

(** [ModuleRuler::setVisibility]. *)
Definition setVisibility (h : Host) (m : ModuleRuler) (val : bool)
    : option (bool * Host * ModuleRuler) :=
  h ← SetProperty h (m_representation m) "Visibility"
        (PInt [if val then 1 else 0]);
  let m :=
    match m_widget m with
    | Some w =>
        let oldValue := m_showLine m in
        let m := setWidgetVisible m w (val && m_showLine m) in
        set_showLine oldValue m
    | None => m
    end in
  Some (true, h, m).

(** [ModuleRuler::visibility]. *)
Definition visibility (h : Host) (m : ModuleRuler) : option bool :=
  match m_representation m with
  | Some r =>
      i ← GetAsInt h (Some r) "Visibility";
      Some (negb (i =? 0))
  | None => Some false
  end.

(** [ModuleRuler::serialize].  [rulerNode] and [representationNode] are
    handles on the two children appended to [ns] first, so what is
    written through them afterwards is part of [ns] whatever the
    outcome. *)
Definition serialize (h : Host) (m : ModuleRuler) (ns : pugi.xml_node)
    : bool * pugi.xml_node * list Event :=
  let rulerNode := pugi.Element "Ruler" [] [] in
  let representationNode := pugi.Element "Representation" [] [] in
  let written r p := pugi.append_child (pugi.append_child ns r) p in
  let rulerProperties := ["Point1"; "Point2"]%string in
  let representationProperties := ["Visibility"%string] in
  let '(ok, rulerNode) :=
    tomviz_serialize h (m_rulerSource m) rulerNode rulerProperties in
  if negb ok then
    (false, written rulerNode representationNode,
     [qWarning "Failed to serialize ruler"])
  else
    let showLine :=
      pugi.append_attribute (pugi.Element "ShowLine" [] [])
                            "value" (pugi.bool_text (m_showLine m)) in
    let representationNode := pugi.append_child representationNode showLine in
    let '(ok, representationNode) :=
      tomviz_serialize h (m_representation m) representationNode
                       representationProperties in
    if negb ok then
      (false, written rulerNode representationNode,
       [qWarning "Failed to serialize ruler representation"])
    else (true, written rulerNode representationNode, []).

(** [ModuleRuler::deserialize].  The second helper call is the right
    operand of [&&]: it runs only when the first one succeeded. *)
Definition deserialize (h : Host) (m : ModuleRuler) (ns : pugi.handle)
    : bool * Host * ModuleRuler :=
  let representationNode := pugi.child ns "Representation" in
  let '(ok, h) := tomviz_deserialize h (m_rulerSource m) (pugi.child ns "Ruler") in
  let '(success, h) :=
    if ok then tomviz_deserialize h (m_representation m) representationNode
    else (false, h) in
  let m :=
    match representationNode with
    | Some _ =>
        let showLineNode := pugi.child representationNode "ShowLine" in
        match showLineNode with
        | Some _ =>
            match pugi.attribute showLineNode "value" with
            | Some valueAttribute =>
                set_showLine (pugi.as_bool valueAttribute) m
            | None => m
            end
        | None => m
        end
    | None => m
    end in
  (success, h, m).

(** [ModuleRuler::isProxyPartOfModule]: a comparison of pointers. *)
Definition isProxyPartOfModule (m : ModuleRuler) (proxy : option positive) : bool :=
  bool_decide (proxy = m_rulerSource m)
  || bool_decide (proxy = m_representation m).

(** [ModuleRuler::getStringForProxy]. *)
Definition getStringForProxy (m : ModuleRuler) (proxy : option positive)
    : string * list Event :=
  if bool_decide (proxy = m_rulerSource m) then ("Ruler"%string, [])
  else if bool_decide (proxy = m_representation m) then ("Representation"%string, [])
  else (""%string,
        [qWarning "Unknown proxy passed to module ruler in save animation"]).

(** [ModuleRuler::getProxyForString]. *)
Definition getProxyForString (m : ModuleRuler) (str : string) : option positive :=
  if bool_decide (str = "Ruler"%string) then m_rulerSource m
  else if bool_decide (str = "Representation"%string) then m_representation m
  else None.

(** [ModuleRuler::endPointsUpdated]: the signals sent, in order. *)
Definition endPointsUpdated (h : Host) (m : ModuleRuler) : option (list Event) :=
  point1 ← GetPoint h (m_rulerSource m) "Point1";
  point2 ← GetPoint h (m_rulerSource m) "Point2";
  a ← dataSource (base m);
  source ← dataSources h !! a;
  img ← ds_output source;
  let p1 := FindPoint img point1 in
  let p2 := FindPoint img point2 in
  scalars ← img_scalars img;
  v1 ← GetTuple1 scalars p1;
  v2 ← GetTuple1 scalars p2;
  Some [newEndpointData v1 v2; renderNeeded].

End Ruler.

Arguments PropValue : clear implicits.
Arguments Proxy : clear implicits.
Arguments Bounds : clear implicits.
Arguments Point : clear implicits.
Arguments vtkImageData : clear implicits.
Arguments DataSource : clear implicits.
Arguments Host : clear implicits.
Arguments Event : clear implicits.
Arguments Environment : clear implicits.

(** ** The proxy state helpers

    [ModuleRuler.cxx] calls [tomviz::serialize], [tomviz::deserialize] and
    [Module::initialize] and holds none of their bodies.  This section
    gives them the behaviour that the specification states: a generic
    helper that writes proxy properties into the structured document, its
    inverse, and the base contract of a module. *)

Section Helpers.

Context {double : Type}.

(** How a [double] is printed into an attribute and read back. *)
Variable show_double : double → string.
Variable read_double : string → option double.

(** Integers are written in decimal. *)
Definition show_Z (z : Z) : string := NilEmpty.string_of_int (Z.to_int z).

Definition read_Z (s : string) : option Z :=
  Z.of_int <$> NilEmpty.int_of_string s.

(** One element of a vector property. *)
Definition element_node (v : string) : pugi.xml_node :=
  pugi.Element "Element" [("value", v)]%string [].

(** One property with its elements in order. *)
Definition property_node (nm : string) (v : PropValue double) : pugi.xml_node :=
  match v with
  | PDouble xs =>
      pugi.Element "Property" [("name", nm); ("type", "double")]%string
                   (element_node ∘ show_double <$> xs)
  | PInt xs =>
      pugi.Element "Property" [("name", nm); ("type", "int")]%string
                   (element_node ∘ show_Z <$> xs)
  end.

(** Modelled from the spec: [tomviz::serialize(proxy, node, properties)]
    of [Utilities.h], whose body is not in [ModuleRuler.cxx].  It writes the
    listed properties of the proxy into the structured node, as one
    [Proxy] element appended to it, and reports failure for a proxy that
    does not exist. *)
Definition spec_serialize (h : Host double) (proxy : option positive)
    (out : pugi.xml_node) (properties : list string) : bool * pugi.xml_node :=
  match deref h proxy with
  | None => (false, out)
  | Some px =>
      let saved :=
        omap (λ nm, property_node nm <$> px_properties px !! nm) properties in
      (true, pugi.append_child out (pugi.Element "Proxy" [] saved))
  end.

Definition read_elements {A} (read : string → option A)
    (kids : list pugi.xml_node) : option (list A) :=
  mapM (λ e, pugi.attribute (Some e) "value" ≫= read) kids.

Definition read_property (e : pugi.xml_node) : option (string * PropValue double) :=
  nm ← pugi.attribute (Some e) "name";
  ty ← pugi.attribute (Some e) "type";
  if bool_decide (ty = "double"%string) then
    xs ← read_elements read_double (pugi.children e); Some (nm, PDouble xs)
  else if bool_decide (ty = "int"%string) then
    xs ← read_elements read_Z (pugi.children e); Some (nm, PInt xs)
  else None.

Definition load_properties (kvs : list (string * PropValue double))
    (props : gmap string (PropValue double)) : gmap string (PropValue double) :=
  foldl (λ acc kv, <[kv.1 := kv.2]> acc) props kvs.

(** Modelled from the spec: [tomviz::deserialize(proxy, node)] of
    [Utilities.h], whose body is not in [ModuleRuler.cxx]: the inverse of
    [tomviz::serialize].  It loads the properties found in the [Proxy]
    element of the node into the proxy; a node without saved state loads
    nothing and succeeds; a proxy that does not exist, or state that
    cannot be read, is a failure and changes nothing.  That the state is
    found by the name of its element is a choice made here, on which the
    specification is silent; what is proved of the round trip asks of the
    helpers only that they are [inverse_helpers], and this pair serves
    to show that such helpers exist. *)
Definition spec_deserialize (h : Host double) (proxy : option positive)
    (node : pugi.handle) : bool * Host double :=
  match proxy with
  | None => (false, h)
  | Some a =>
      match proxies h !! a with
      | None => (false, h)
      | Some px =>
          match pugi.child node "Proxy" with
          | None => (true, h)
          | Some st =>
              match mapM read_property (pugi.children st) with
              | None => (false, h)
              | Some kvs =>
                  (true,
                   set_proxies
                     <[a := mkProxy (load_properties kvs (px_properties px))
                                    (px_labelFormat px)]> h)
              end
          end
      end
  end.

(** Modelled from the spec: [Module::initialize] of [Module.h], the base
    contract that [initialize] runs first.  It keeps the data source and
    the view, and fails when one of them is missing. *)
Definition spec_Module_initialize (b : Module) (data view : option positive)
    : bool * Module :=
  (bool_decide (is_Some view) && bool_decide (is_Some data), mkModule data view).

(** The environment built from the helpers above.  A view can show the
    ruler when it exists, and the widget emits its signal when its
    visibility changes. *)
Definition spec_environment : Environment double :=
  mkEnvironment spec_Module_initialize
                (λ view, bool_decide (is_Some view))
                (λ old new, negb (eqb old new))
                spec_serialize spec_deserialize.

End Helpers.

(** ** What the module states about itself *)

Section Properties.

Context {double : Type} {env : Environment double}.

(** A module that owns two distinct live proxies, with the properties
    that [serialize] saves set on them. *)
Definition initialized (h : Host double) (m : ModuleRuler) : Prop :=
  ∃ ruler rep : positive,
    m_rulerSource m = Some ruler ∧ m_representation m = Some rep ∧
    ruler ≠ rep ∧
    is_Some (GetProperty h (Some ruler) "Point1") ∧
    is_Some (GetProperty h (Some ruler) "Point2") ∧
    is_Some (GetProperty h (Some rep) "Visibility").

(** The state that [serialize] saves and [deserialize] restores. *)
Definition saved_state (h : Host double) (m : ModuleRuler)
    : option (PropValue double) * option (PropValue double)
      * option (PropValue double) * bool :=
  (GetProperty h (m_rulerSource m) "Point1",
   GetProperty h (m_rulerSource m) "Point2",
   GetProperty h (m_representation m) "Visibility",
   m_showLine m).




(** The two helper calls of [serialize], with the nodes they are given. *)
Definition ruler_saved (h : Host double) (m : ModuleRuler) : bool * pugi.xml_node :=
  tomviz_serialize h (m_rulerSource m) (pugi.Element "Ruler" [] [])
                   ["Point1"; "Point2"]%string.

Definition representation_saved (h : Host double) (m : ModuleRuler)
    : bool * pugi.xml_node :=
  tomviz_serialize h (m_representation m)
    (pugi.Element "Representation" []
       [pugi.Element "ShowLine"
          [("value"%string, pugi.bool_text (m_showLine m))] []])
    ["Visibility"%string].

(** The two helper calls of [deserialize]; the second one starts from
    the host as the first one left it. *)
Definition ruler_loaded (h : Host double) (m : ModuleRuler) (ns : pugi.handle)
    : bool * Host double :=
  tomviz_deserialize h (m_rulerSource m) (pugi.child ns "Ruler").

Definition representation_loaded (h : Host double) (m : ModuleRuler)
    (ns : pugi.handle) : bool * Host double :=
  tomviz_deserialize (ruler_loaded h m ns).2 (m_representation m)
                     (pugi.child ns "Representation").

End Properties.

(** ** A small world to run the module in *)

Module Fixture.

(** Coordinates and scalars are whole numbers here, written in decimal. *)
Definition env : Environment Z := spec_environment show_Z read_Z.

(** The nearest point lookup of a grid of [nx * ny * nz] samples with
    origin 0 and spacing 1, as [vtkImageData::FindPoint] does it: -1
    outside the extent, else the id in x-fastest order. *)
Definition grid_FindPoint (nx ny nz : Z) (x : Point Z) : Z :=
  let '(i, j, k) := x in
  if bool_decide (0 ≤ i < nx ∧ 0 ≤ j < ny ∧ 0 ≤ k < nz)
  then k * nx * ny + j * nx + i
  else -1.

(** Two samples along x, with scalars 10 and 20. *)
Definition image : vtkImageData Z :=
  mkImage (mkBounds 0 1 0 0 0 0) (grid_FindPoint 2 1 1) (Some [10; 20]).

(** A host with that image as data source 1 and no proxy yet. *)
Definition host : Host Z :=
  mkHost ∅ ∅ 1%positive {[1%positive := mkDataSource (Some image) "nm"]}.

(** A module as its constructor leaves it. *)
Definition fresh (showLine : bool) : ModuleRuler :=
  mkModuleRuler (mkModule None None) None None None showLine None.

Definition data : option positive := Some 1%positive.
Definition view : option positive := Some 1%positive.

(** The host and the module after [initialize]. *)
Definition started (showLine : bool) : Host Z * ModuleRuler :=
  match initialize (env := env) host (fresh showLine) data view with
  | Some (_, h, m) => (h, m)
  | None => (host, fresh showLine)
  end.

(** The module once its panel is built. *)
Definition with_panel (showLine : bool) : ModuleRuler :=
  match addToPanel (env := env) (started showLine).1 (started showLine).2 with
  | Some m => m
  | None => (started showLine).2
  end.

(** The host once the user has dragged the first end of the ruler to
    [(-5, 0, 0)], which is outside the image. *)
Definition dragged : Host Z :=
  match SetProperty (started true).1 (m_rulerSource (started true).2)
                    "Point1" (PDouble [-5; 0; 0]) with
  | Some h => h
  | None => (started true).1
  end.

(** A ruler whose flag is off, whose second end was moved to the origin
    and which was then hidden. *)
Definition hidden : Host Z * ModuleRuler :=
  match SetProperty (started false).1 (m_rulerSource (started false).2)
                    "Point2" (PDouble [0; 0; 0]) with
  | Some h =>
      match setVisibility (env := env) h (started false).2 false with
      | Some (_, h, m) => (h, m)
      | None => started false
      end
  | None => started false
  end.

(** An empty node to write a module into. *)
Definition empty_node : pugi.xml_node := pugi.Element "Module" [] [].

(** A document that carries the [ShowLine] flag and no proxy state. *)
Definition flag_only (showLine : bool) : pugi.xml_node :=
  pugi.Element "Module" []
    [pugi.Element "Representation" []
       [pugi.Element "ShowLine" [("value"%string, pugi.bool_text showLine)] []]].

(** A document from before the [ShowLine] flag was saved. *)
Definition old_document : pugi.xml_node :=
  pugi.Element "Module" []
    [pugi.Element "Ruler" [] []; pugi.Element "Representation" [] []].

(** A second ruler on the same data, made after the first one. *)
Definition second : Host Z * ModuleRuler :=
  match initialize (env := env) (started true).1 (fresh false) data view with
  | Some (_, h, m) => (h, m)
  | None => ((started true).1, fresh false)
  end.

(** The host of the first ruler once the data source reports its units
    as micrometres. *)
Definition rescaled : Host Z :=
  mkHost (proxies (started true).1) (registered (started true).1)
         (next_proxy (started true).1)
         {[1%positive := mkDataSource (Some image) "um"]}.

End Fixture.

(** ** Properties of the module, for every environment *)

Section Proofs.

Context {double : Type} {env : Environment double}.

Implicit Types (h : Host double) (m : ModuleRuler) (p : option positive).

Local Abbreviation getStringForProxy := (getStringForProxy (double := double)).

(** *** The setters touch one member each *)

Lemma setWidgetVisible_pointers m w val :
  m_rulerSource (setWidgetVisible m w val) = m_rulerSource m ∧
  m_representation (setWidgetVisible m w val) = m_representation m ∧
  base (setWidgetVisible m w val) = base m.
Proof.
  unfold setWidgetVisible.
  destruct (updateShowLine_connected w && _); auto.
Qed.

Lemma finalize_null h m :
  m_rulerSource m = None → m_representation m = None →
  finalize h m = (true, h, m).
Proof.
  destruct m as [b r p w s d]; simpl; intros -> ->. reflexivity.
Qed.

(** *** finalize *)

(** C5: [finalize] answers true and leaves both pointers null; after it
    [isProxyPartOfModule] answers false for every non-null pointer, so
    for each of the two objects the module owned before, and the
    controller no longer has these two registered. *)
Theorem finalize_releases h m :
  ∃ h' m',
    finalize h m = (true, h', m') ∧
    m_rulerSource m' = None ∧ m_representation m' = None ∧
    (∀ a : positive, isProxyPartOfModule m' (Some a) = false) ∧
    (∀ a : positive,
       m_rulerSource m = Some a ∨ m_representation m = Some a →
       isProxyPartOfModule m' (Some a) = false ∧ a ∉ registered h').
Proof.
  eexists _, _. split; [reflexivity|]. simpl.
  split; [reflexivity|]. split; [reflexivity|].
  assert (Hpart : ∀ a : positive,
    isProxyPartOfModule (set_rulerSource None (set_representation None m))
      (Some a) = false).
  { intros a. reflexivity. }
  split; [exact Hpart|].
  intros a Ha. split; [apply Hpart|].
  unfold UnRegisterProxy.
  destruct Ha as [Ha|Ha]; rewrite Ha; [|destruct (m_rulerSource m)]; simpl;
    rewrite ?elem_of_difference, !elem_of_singleton; tauto.
Qed.

(** C10: a second [finalize], or the destructor after a [finalize],
    changes neither the host nor the module, answers true, and the
    pointers stay null. *)
Theorem finalize_idempotent h m :
  let '(_, h1, m1) := finalize h m in
  finalize h1 m1 = (true, h1, m1) ∧
  destructor h1 m1 = (h1, m1) ∧
  m_rulerSource m1 = None ∧ m_representation m1 = None.
Proof.
  unfold destructor. simpl. rewrite finalize_null by reflexivity. auto.
Qed.

(** *** The names of the two proxies *)

(** C8: when the module owns its two objects, the ruler source is named
    ["Ruler"] and the representation ["Representation"], and the two
    strings are mapped back to the same pointers; any other pointer gets
    a warning and the empty string, any other string the null pointer. *)
Theorem proxy_names m :
  m_rulerSource m ≠ m_representation m →
  getStringForProxy m (m_rulerSource m) = ("Ruler"%string, []) ∧
  getStringForProxy m (m_representation m) = ("Representation"%string, []) ∧
  (∀ p, p = m_rulerSource m ∨ p = m_representation m →
        getProxyForString m (getStringForProxy m p).1 = p) ∧
  (∀ p, p ≠ m_rulerSource m → p ≠ m_representation m →
        getStringForProxy m p =
          (""%string,
           [qWarning "Unknown proxy passed to module ruler in save animation"])) ∧
  (∀ str, str ≠ "Ruler"%string → str ≠ "Representation"%string →
          getProxyForString m str = None).
Proof.
  intros Hne.
  assert (H1 : getStringForProxy m (m_rulerSource m) = ("Ruler"%string, [])).
  { unfold getStringForProxy. rewrite bool_decide_eq_true_2; done. }
  assert (H2 : getStringForProxy m (m_representation m)
               = ("Representation"%string, [])).
  { unfold getStringForProxy.
    rewrite bool_decide_eq_false_2 by congruence.
    rewrite bool_decide_eq_true_2; done. }
  repeat split; try assumption.
  - intros p [->| ->]; [rewrite H1|rewrite H2]; reflexivity.
  - intros p Hr Hp. unfold getStringForProxy.
    rewrite !bool_decide_eq_false_2 by assumption. reflexivity.
  - intros str Hr Hp. unfold getProxyForString.
    rewrite !bool_decide_eq_false_2 by assumption. reflexivity.
Qed.

(** *** Visibility *)

(** C3: on a module whose representation exists, [setVisibility val]
    answers true and leaves [m_showLine] as it was, whatever the widget
    does; the [Visibility] property of the representation is then 1 or 0
    as [val] says and [visibility] reads [val] back, so true after
    [setVisibility true]. *)
Theorem setVisibility_keeps_showLine h m val :
  is_Some (deref h (m_representation m)) →
  ∃ h' m',
    setVisibility h m val = Some (true, h', m') ∧
    m_showLine m' = m_showLine m ∧
    GetProperty h' (m_representation m') "Visibility"
      = Some (PInt [if val then 1 else 0]) ∧
    visibility h' m' = Some val.
Proof.
  intros [px Hpx]. unfold deref in Hpx.
  destruct (m_representation m) as [r|] eqn:Hr; [|discriminate].
  simpl in Hpx. unfold setVisibility, SetProperty. rewrite Hr. simpl.
  rewrite Hpx. simpl. eexists _, _. split; [reflexivity|].
  assert (Hvis : ∀ m', m_representation m' = Some r →
    let h' :=
      set_proxies
        <[r := mkProxy
                 (<["Visibility"%string := PInt [if val then 1 else 0]]>
                    (px_properties px)) (px_labelFormat px)]> h in
    GetProperty h' (m_representation m') "Visibility"
      = Some (PInt [if val then 1 else 0]) ∧
    visibility h' m' = Some val).
  { intros m' Hm'. unfold visibility, GetAsInt, GetProperty, deref.
    rewrite Hm'. simpl. rewrite lookup_insert_eq. simpl.
    rewrite lookup_insert_eq. split; [reflexivity|].
    destruct val; reflexivity. }
  destruct (m_widget m) as [w|].
  - split; [reflexivity|]. apply Hvis. simpl.
    destruct (setWidgetVisible_pointers m w (val && m_showLine m)) as (_ & -> & _).
    exact Hr.
  - split; [reflexivity|]. apply Hvis, Hr.
Qed.

(** *** What the host calls leave alone *)

Lemma GetProperty_SetProperty h p nm v h' :
  SetProperty h p nm v = Some h' →
  ∀ q nm', GetProperty h' q nm' =
           if decide (q = p ∧ nm' = nm) then Some v else GetProperty h q nm'.
Proof.
  unfold SetProperty. destruct p as [a|]; [|discriminate]. simpl.
  destruct (proxies h !! a) as [px|] eqn:Hpx; [|discriminate]. simpl.
  intros [= <-] q nm'.
  destruct (decide (q = Some a ∧ nm' = nm)) as [[-> ->]|Hn].
  - unfold GetProperty, deref; simpl. rewrite lookup_insert_eq. simpl.
    apply lookup_insert_eq.
  - unfold GetProperty, deref. destruct q as [b|]; simpl; [|done].
    destruct (decide (b = a)) as [->|].
    + rewrite lookup_insert_eq, Hpx; simpl.
      rewrite lookup_insert_ne; [done|]. intros <-. apply Hn; done.
    + rewrite lookup_insert_ne by done. done.
Qed.

Lemma SetProperty_frame h p nm v h' :
  SetProperty h p nm v = Some h' →
  next_proxy h' = next_proxy h ∧ registered h' = registered h ∧
  dataSources h' = dataSources h.
Proof.
  unfold SetProperty. destruct p as [a|]; [|discriminate]. simpl.
  destruct (proxies h !! a); [|discriminate]. simpl.
  intros [= <-]. auto.
Qed.

Lemma SetProperty_is_Some h p nm v :
  is_Some (deref h p) → is_Some (SetProperty h p nm v).
Proof.
  unfold deref, SetProperty. destruct p as [a|]; simpl; [|by intros [? ?]].
  destruct (proxies h !! a); simpl; [eauto|by intros [? ?]].
Qed.

Lemma Show_shown h source view h' rep :
  Show h source view = (h', rep) →
  (rep = None ∧ h' = h) ∨
  (Show_accepts view = true ∧ rep = Some (next_proxy h) ∧
   dataSources h' = dataSources h ∧
   is_Some (proxies h' !! next_proxy h) ∧
   GetProperty h' rep "Visibility" = Some (PInt [1]) ∧
   ∀ q nm, q ≠ rep → GetProperty h' q nm = GetProperty h q nm).
Proof.
  unfold Show. destruct (Show_accepts view); intros [= <- <-]; [right|auto].
  split; [reflexivity|]. split; [reflexivity|]. split; [reflexivity|].
  unfold GetProperty, deref. simpl. rewrite lookup_insert_eq. simpl.
  split; [eauto|]. split; [apply lookup_singleton_eq|].
  intros [b|] nm Hq; simpl; [|reflexivity].
  rewrite lookup_insert_ne by congruence. reflexivity.
Qed.

Lemma updateUnits_frame h m h' :
  updateUnits h m = Some h' →
  dataSources h' = dataSources h ∧
  ∀ q nm, GetProperty h' q nm = GetProperty h q nm.
Proof.
  unfold updateUnits.
  destruct (dataSource (base m)) as [a|]; [|discriminate]. simpl.
  destruct (dataSources h !! a); [|discriminate]. simpl.
  destruct (m_representation m) as [r|]; [|discriminate]. simpl.
  destruct (proxies h !! r) as [px|] eqn:Hr; [|discriminate]. simpl.
  intros [= <-]. split; [reflexivity|].
  intros [b|] nm; unfold GetProperty, deref; simpl; [|reflexivity].
  destruct (decide (b = r)) as [->|].
  - rewrite lookup_insert_eq, Hr. reflexivity.
  - rewrite lookup_insert_ne by done. reflexivity.
Qed.

Lemma GetPoint_three h p nm x y z :
  GetProperty h p nm = Some (PDouble [x; y; z]) → GetPoint h p nm = Some (x, y, z).
Proof. unfold GetPoint. intros ->. reflexivity. Qed.

(** *** initialize *)

Local Arguments SetProperty : simpl never.
Local Arguments Show : simpl never.
Local Arguments updateUnits : simpl never.
Local Arguments deref : simpl never.
Local Arguments GetProperty : simpl never.
Local Arguments RegisterPipelineProxy : simpl never.

Ltac bind_step H :=
  match goal with
  | |- (?x ≫= _) = Some _ → _ =>
      destruct x eqn:H; simpl; [|discriminate]
  end.

(** What a successful [initialize] has done, step by step. *)
Lemma initialize_inv h m data view h' m' :
  initialize h m data view = Some (true, h', m') →
  ∃ d source img (rep : positive),
    data = Some d ∧ dataSources h !! d = Some source ∧
    ds_output source = Some img ∧
    m_rulerSource m' = Some (next_proxy h) ∧
    m_representation m' = Some rep ∧ next_proxy h ≠ rep ∧
    m_showLine m' = m_showLine m ∧ m_widget m' = m_widget m ∧
    dataSources h' = dataSources h ∧
    GetProperty h' (Some (next_proxy h)) "Point1" =
      Some (PDouble [bounds0 (img_bounds img); bounds2 (img_bounds img);
                     bounds4 (img_bounds img)]) ∧
    GetProperty h' (Some (next_proxy h)) "Point2" =
      Some (PDouble [bounds1 (img_bounds img); bounds3 (img_bounds img);
                     bounds5 (img_bounds img)]) ∧
    GetProperty h' (Some rep) "Visibility" = Some (PInt [1]).
Proof.
  unfold initialize.
  destruct (Module_initialize (base m) data view) as [ok b].
  destruct ok; simpl; [|discriminate].
  bind_step Hdata. bind_step Hd. bind_step Himg.
  bind_step H1. bind_step H2.
  destruct (Show _ _ _) as [h5 rep] eqn:Hshow. simpl.
  bind_step Hrep. bind_step Hu.
  intros [= Hok <- <-]. simpl.
  pose proof (GetProperty_SetProperty _ _ _ _ _ H1) as G1.
  pose proof (GetProperty_SetProperty _ _ _ _ _ H2) as G2.
  destruct (SetProperty_frame _ _ _ _ _ H1) as (N1 & _ & D1).
  destruct (SetProperty_frame _ _ _ _ _ H2) as (N2 & _ & D2).
  destruct (updateUnits_frame _ _ _ Hu) as (D6 & G6).
  apply Show_shown in Hshow as [[-> ->]|(_ & -> & D5 & _ & V5 & G5)];
    [discriminate|].
  simpl in *. rewrite N2, N1 in *. simpl in *.
  assert (Hne : next_proxy h ≠ Pos.succ (next_proxy h)) by lia.
  eexists _, _, _, _. repeat split; try eassumption; try reflexivity.
  - rewrite D6, D5, D2, D1. reflexivity.
  - rewrite G6, G5 by congruence.
    change (GetProperty (RegisterPipelineProxy ?x _)) with (GetProperty x).
    rewrite G2, decide_False by (intros [_ ?]; discriminate).
    rewrite G1, decide_True; done.
  - rewrite G6, G5 by congruence.
    change (GetProperty (RegisterPipelineProxy ?x _)) with (GetProperty x).
    rewrite G2, decide_True; done.
  - rewrite G6. exact V5.
Qed.

(** C1: after a successful [initialize] the ruler source exists, its
    [Point1] is the corner [(bounds[0], bounds[2], bounds[4])] of the
    bounds of the data and its [Point2] is the corner [(bounds[1],
    bounds[3], bounds[5])], each number unchanged. *)
Theorem initialize_endpoints h m data view h' m' :
  initialize h m data view = Some (true, h', m') →
  ∃ d source img,
    data = Some d ∧ dataSources h !! d = Some source ∧
    ds_output source = Some img ∧
    is_Some (m_rulerSource m') ∧
    GetPoint h' (m_rulerSource m') "Point1" =
      Some (bounds0 (img_bounds img), bounds2 (img_bounds img),
            bounds4 (img_bounds img)) ∧
    GetPoint h' (m_rulerSource m') "Point2" =
      Some (bounds1 (img_bounds img), bounds3 (img_bounds img),
            bounds5 (img_bounds img)).
Proof.
  intros Hinit.
  apply initialize_inv in Hinit
    as (d & source & img & rep & ? & ? & ? & Hr & _ & _ & _ & _ & _ & P1 & P2 & _).
  exists d, source, img. rewrite Hr.
  repeat split; try assumption; [eauto|..]; by apply GetPoint_three.
Qed.

Lemma deref_SetProperty h p nm v h' q :
  SetProperty h p nm v = Some h' → is_Some (deref h q) → is_Some (deref h' q).
Proof.
  unfold SetProperty, deref. destruct p as [a|]; [|discriminate]. simpl.
  destruct (proxies h !! a) eqn:Ha; [|discriminate]. simpl.
  intros [= <-]. destruct q as [b|]; simpl; [|done].
  destruct (decide (b = a)) as [->|].
  - rewrite lookup_insert_eq. eauto.
  - rewrite lookup_insert_ne by done. done.
Qed.

(** X2: [initialize] does succeed when the base contract accepts and
    keeps a live data source, the data has an image and the view can show
    the ruler. *)
Lemma initialize_succeeds h m d view b a source img :
  Module_initialize (base m) (Some d) view = (true, b) →
  dataSources h !! d = Some source → ds_output source = Some img →
  dataSource b = Some a → is_Some (dataSources h !! a) →
  Show_accepts view = true →
  ∃ h' m', initialize h m (Some d) view = Some (true, h', m').
Proof.
  intros Hb Hd Himg Hds [src Ha] Hshow.
  unfold initialize. rewrite Hb. simpl. rewrite Hd. simpl. rewrite Himg. simpl.
  destruct (SetProperty_is_Some
              (mkHost (<[next_proxy h := mkProxy ∅ ""]> (proxies h))
                      (registered h) (Pos.succ (next_proxy h)) (dataSources h))
              (Some (next_proxy h)) "Point1"
              (PDouble [bounds0 (img_bounds img); bounds2 (img_bounds img);
                        bounds4 (img_bounds img)])) as [h1 H1].
  { unfold deref. simpl. rewrite lookup_insert_eq. eauto. }
  rewrite H1. simpl.
  destruct (SetProperty_is_Some h1 (Some (next_proxy h)) "Point2"
              (PDouble [bounds1 (img_bounds img); bounds3 (img_bounds img);
                        bounds5 (img_bounds img)])) as [h2 H2].
  { eapply deref_SetProperty; [exact H1|].
    unfold deref. simpl. rewrite lookup_insert_eq. eauto. }
  rewrite H2. simpl.
  destruct (SetProperty_frame _ _ _ _ _ H1) as (_ & _ & D1).
  destruct (SetProperty_frame _ _ _ _ _ H2) as (_ & _ & D2).
  destruct (Show _ _ _) as [h5 rep] eqn:Hs. simpl.
  unfold Show in Hs. rewrite Hshow in Hs. injection Hs as <- <-.
  unfold deref at 1. simpl. rewrite lookup_insert_eq. simpl.
  unfold updateUnits. simpl. rewrite Hds. simpl.
  rewrite D2, D1. simpl. rewrite Ha. simpl.
  rewrite lookup_insert_eq. simpl. eauto.
Qed.

(** A successful [initialize] leaves the module owning its two objects. *)
Lemma initialize_initialized h m data view h' m' :
  initialize h m data view = Some (true, h', m') → initialized h' m'.
Proof.
  intros Hinit.
  apply initialize_inv in Hinit
    as (d & source & img & rep & _ & _ & _ & Hr & Hp & Hne & _ & _ & _ & P1 & P2 & V).
  exists (next_proxy h), rep. rewrite P1, P2, V. eauto 10.
Qed.

(** *** endPointsUpdated *)

(** X19: with both lookups inside the array, the signal carries the
    scalars at the two ids found, and a render is asked for. *)
Lemma endPointsUpdated_in_grid h m point1 point2 a source img scalars v1 v2 :
  GetPoint h (m_rulerSource m) "Point1" = Some point1 →
  GetPoint h (m_rulerSource m) "Point2" = Some point2 →
  dataSource (base m) = Some a → dataSources h !! a = Some source →
  ds_output source = Some img → img_scalars img = Some scalars →
  0 ≤ FindPoint img point1 → 0 ≤ FindPoint img point2 →
  scalars !! Z.to_nat (FindPoint img point1) = Some v1 →
  scalars !! Z.to_nat (FindPoint img point2) = Some v2 →
  endPointsUpdated h m = Some [newEndpointData v1 v2; renderNeeded].
Proof.
  intros P1 P2 Ha Hs Hi Hsc L1 L2 V1 V2.
  unfold endPointsUpdated. rewrite P1. simpl. rewrite P2. simpl.
  rewrite Ha. simpl. rewrite Hs. simpl. rewrite Hi. simpl. rewrite Hsc. simpl.
  unfold GetTuple1. rewrite !bool_decide_eq_true_2 by assumption.
  rewrite V1. simpl. rewrite V2. reflexivity.
Qed.

(** X20: with a lookup that found no sample, the read of the array is
    outside it and no defined signal comes out. *)
Lemma endPointsUpdated_lookup_failed h m point1 point2 a source img :
  GetPoint h (m_rulerSource m) "Point1" = Some point1 →
  GetPoint h (m_rulerSource m) "Point2" = Some point2 →
  dataSource (base m) = Some a → dataSources h !! a = Some source →
  ds_output source = Some img →
  FindPoint img point1 < 0 ∨ FindPoint img point2 < 0 →
  endPointsUpdated h m = None.
Proof.
  intros P1 P2 Ha Hs Hi Hneg.
  unfold endPointsUpdated. rewrite P1. simpl. rewrite P2. simpl.
  rewrite Ha. simpl. rewrite Hs. simpl. rewrite Hi. simpl.
  destruct (img_scalars img) as [scalars|]; [|reflexivity]. simpl.
  unfold GetTuple1. destruct Hneg as [Hneg|Hneg].
  - rewrite (bool_decide_eq_false_2 (0 ≤ FindPoint img point1)) by lia.
    reflexivity.
  - rewrite (bool_decide_eq_false_2 (0 ≤ FindPoint img point2)) by lia.
    destruct (if bool_decide _ then _ else _); reflexivity.
Qed.

(** *** serialize and deserialize *)

(** C7: [serialize] answers true exactly when the helper saved the ruler
    properties and then the representation property; a failure of the
    first is logged as such and ends the function, a failure of the
    second is logged as such, and success logs nothing. *)
Theorem serialize_reports h m ns :
  (serialize h m ns).1.1 = (ruler_saved h m).1 && (representation_saved h m).1 ∧
  ((ruler_saved h m).1 = false →
     (serialize h m ns).1.1 = false ∧
     (serialize h m ns).2 = [qWarning "Failed to serialize ruler"]) ∧
  ((ruler_saved h m).1 = true → (representation_saved h m).1 = false →
     (serialize h m ns).1.1 = false ∧
     (serialize h m ns).2 = [qWarning "Failed to serialize ruler representation"]) ∧
  ((ruler_saved h m).1 = true → (representation_saved h m).1 = true →
     (serialize h m ns).1.1 = true ∧ (serialize h m ns).2 = []).
Proof.
  unfold serialize, ruler_saved, representation_saved. simpl.
  destruct (tomviz_serialize h (m_rulerSource m) _ _) as [[|] rulerNode]; simpl.
  - destruct (tomviz_serialize h (m_representation m) _ _)
      as [[|] representationNode]; simpl; repeat split; auto; discriminate.
  - repeat split; auto; discriminate.
Qed.

(** C6: when the document has no [Representation] node, or that node no
    [ShowLine] child, or that child no [value] attribute, [deserialize]
    leaves [m_showLine] as it was; it is only from a [value] attribute
    that is present that [m_showLine] is set. *)
Theorem deserialize_keeps_showLine h m ns :
  (pugi.child ns "Representation" = None ∨
   pugi.child (pugi.child ns "Representation") "ShowLine" = None ∨
   pugi.attribute (pugi.child (pugi.child ns "Representation") "ShowLine")
                  "value" = None →
   m_showLine (deserialize h m ns).2 = m_showLine m) ∧
  (m_showLine (deserialize h m ns).2 ≠ m_showLine m →
   ∃ v, pugi.attribute
          (pugi.child (pugi.child ns "Representation") "ShowLine") "value"
        = Some v ∧
        m_showLine (deserialize h m ns).2 = pugi.as_bool v).
Proof.
  unfold deserialize.
  destruct (tomviz_deserialize h _ _) as [ok h1].
  destruct (if ok then _ else _) as [success h2]. simpl.
  destruct (pugi.child ns "Representation") as [rep|]; [|by split].
  destruct (pugi.child (Some rep) "ShowLine") as [sl|]; [|by split].
  destruct (pugi.attribute (Some sl) "value") as [v|]; [|by split].
  split; [|by eauto].
  intros [?|[?|?]]; discriminate.
Qed.

(** C9: a [value] attribute of [Representation/ShowLine] is taken into
    [m_showLine] whatever [deserialize] answers, so also when it answers
    false.  The answer is the conjunction of the two helper results; when
    the helper fails on the ruler, the host is as that one call left it:
    the helper is not run on the representation. *)
Theorem deserialize_not_atomic h m ns v :
  pugi.attribute (pugi.child (pugi.child ns "Representation") "ShowLine")
                 "value" = Some v →
  m_showLine (deserialize h m ns).2 = pugi.as_bool v ∧
  (deserialize h m ns).1.1
    = (ruler_loaded h m ns).1 && (representation_loaded h m ns).1 ∧
  ((ruler_loaded h m ns).1 = false →
     (deserialize h m ns).1.1 = false ∧
     (deserialize h m ns).1.2 = (ruler_loaded h m ns).2) ∧
  ((ruler_loaded h m ns).1 = true →
     (deserialize h m ns).1.2 = (representation_loaded h m ns).2).
Proof.
  intros Hv. unfold representation_loaded, deserialize, ruler_loaded.
  destruct (tomviz_deserialize h (m_rulerSource m) _) as [ok h1]. split.
  - destruct (if ok then _ else _) as [success h2]. simpl.
    destruct (pugi.child ns "Representation") as [rep|]; [|discriminate].
    destruct (pugi.child (Some rep) "ShowLine") as [sl|]; [|discriminate].
    rewrite Hv. reflexivity.
  - simpl. destruct ok; simpl.
    + destruct (tomviz_deserialize h1 _ _) as [success h2]. simpl.
      repeat split; auto; discriminate.
    + repeat split; auto; discriminate.
Qed.

End Proofs.

(** ** The helpers of the specification are inverse helpers *)

Section RoundTrip.

Context {double : Type}.
Variable show_double : double → string.
Variable read_double : string → option double.

(** What is printed for a [double] reads back as the same [double]. *)
Hypothesis read_show_double : ∀ d, read_double (show_double d) = Some d.

Local Abbreviation E := (spec_environment show_double read_double).

Implicit Types (h : Host double) (m : ModuleRuler).








End RoundTrip.

(** ** The round trip, for every pair of inverse helpers *)

Section RoundTripAny.

Context {double : Type} {env : Environment double}.

Implicit Types (h : Host double) (m : ModuleRuler).



End RoundTripAny.

(** ** The module at work in the small world *)

(** [initialize] on the image with bounds [(0, 1, 0, 0, 0, 0)]. *)
Lemma initialize_endpoints_witness :
  initialize (env := Fixture.env) Fixture.host (Fixture.fresh true)
             Fixture.data Fixture.view
  = Some (true, (Fixture.started true).1, (Fixture.started true).2) ∧
  ∃ d source img,
    Fixture.data = Some d ∧ dataSources Fixture.host !! d = Some source ∧
    ds_output source = Some img ∧
    is_Some (m_rulerSource (Fixture.started true).2) ∧
    GetPoint (Fixture.started true).1 (m_rulerSource (Fixture.started true).2)
             "Point1"
    = Some (bounds0 (img_bounds img), bounds2 (img_bounds img),
            bounds4 (img_bounds img)) ∧
    GetPoint (Fixture.started true).1 (m_rulerSource (Fixture.started true).2)
             "Point2"
    = Some (bounds1 (img_bounds img), bounds3 (img_bounds img),
            bounds5 (img_bounds img)).
Proof.
  split; [vm_compute; reflexivity|].
  apply (initialize_endpoints (env := Fixture.env) Fixture.host
           (Fixture.fresh true) Fixture.data Fixture.view).
  vm_compute; reflexivity.
Defined.

Example initialize_corners :
  GetPoint (Fixture.started true).1 (m_rulerSource (Fixture.started true).2)
           "Point1" = Some (0, 0, 0) ∧
  GetPoint (Fixture.started true).1 (m_rulerSource (Fixture.started true).2)
           "Point2" = Some (1, 0, 0).
Proof. split; vm_compute; reflexivity. Qed.

(** The two names on the initialized module. *)
Lemma proxy_names_witness :
  m_rulerSource (Fixture.started true).2
    ≠ m_representation (Fixture.started true).2 ∧
  getStringForProxy (double := Z) (Fixture.started true).2 (Some 1%positive)
    = ("Ruler"%string, []) ∧
  getStringForProxy (double := Z) (Fixture.started true).2 (Some 2%positive)
    = ("Representation"%string, []).
Proof.
  assert (Hne : m_rulerSource (Fixture.started true).2
                ≠ m_representation (Fixture.started true).2)
    by (vm_compute; discriminate).
  split; [exact Hne|].
  destruct (proxy_names (double := Z) (Fixture.started true).2 Hne)
    as (H1 & H2 & _).
  split; [exact H1|exact H2].
Defined.

(** Hiding a module whose panel is built and whose line is shown. *)
Lemma setVisibility_keeps_showLine_witness :
  is_Some (deref (Fixture.started true).1
                 (m_representation (Fixture.with_panel true))) ∧
  ∃ h' m',
    setVisibility (env := Fixture.env) (Fixture.started true).1
                  (Fixture.with_panel true) false = Some (true, h', m') ∧
    m_showLine m' = m_showLine (Fixture.with_panel true) ∧
    GetProperty h' (m_representation m') "Visibility" = Some (PInt [0]) ∧
    visibility h' m' = Some false.
Proof.
  assert (Hrep : is_Some (deref (Fixture.started true).1
                   (m_representation (Fixture.with_panel true))))
    by (vm_compute; eauto).
  split; [exact Hrep|].
  exact (setVisibility_keeps_showLine (env := Fixture.env)
           (Fixture.started true).1 (Fixture.with_panel true) false Hrep).
Defined.

(** The widget does run the slot in that call: without the restore the
    flag would have gone to false with the widget. *)
Example setVisibility_widget_hidden :
  m_showLine (Fixture.with_panel true) = true ∧
  m_widget (Fixture.with_panel true) = Some (mkLineWidget true true) ∧
  m_showLine
    (setWidgetVisible (env := Fixture.env) (Fixture.with_panel true)
                      (mkLineWidget true true) false) = false.
Proof. repeat split; vm_compute; reflexivity. Qed.

(** A module without proxies: the first helper call fails. *)
Lemma serialize_reports_witness :
  (ruler_saved (env := Fixture.env) Fixture.host (Fixture.fresh true)).1 = false ∧
  (serialize (env := Fixture.env) Fixture.host (Fixture.fresh true)
             Fixture.empty_node).1.1 = false ∧
  (serialize (env := Fixture.env) Fixture.host (Fixture.fresh true)
             Fixture.empty_node).2 = [qWarning "Failed to serialize ruler"].
Proof.
  assert (Hfail : (ruler_saved (env := Fixture.env) Fixture.host
                               (Fixture.fresh true)).1 = false)
    by reflexivity.
  split; [exact Hfail|].
  exact (proj1 (proj2 (serialize_reports (env := Fixture.env) Fixture.host
                         (Fixture.fresh true) Fixture.empty_node)) Hfail).
Defined.

Example serialize_started :
  (ruler_saved (env := Fixture.env) (Fixture.started true).1
               (Fixture.started true).2).1 = true ∧
  (representation_saved (env := Fixture.env) (Fixture.started true).1
                        (Fixture.started true).2).1 = true ∧
  (serialize (env := Fixture.env) (Fixture.started true).1
             (Fixture.started true).2 Fixture.empty_node).1.1 = true.
Proof. repeat split; vm_compute; reflexivity. Qed.

(** An old document loaded into a module whose flag is off. *)
Lemma deserialize_keeps_showLine_witness :
  pugi.child (pugi.child (Some Fixture.old_document) "Representation")
             "ShowLine" = None ∧
  m_showLine (deserialize (env := Fixture.env) (Fixture.started false).1
                (Fixture.started false).2 (Some Fixture.old_document)).2
  = false.
Proof.
  assert (Hlack :
    pugi.child (pugi.child (Some Fixture.old_document) "Representation")
               "ShowLine" = None) by reflexivity.
  split; [exact Hlack|].
  exact (proj1 (deserialize_keeps_showLine (env := Fixture.env)
                  (Fixture.started false).1 (Fixture.started false).2
                  (Some Fixture.old_document))
               (or_intror (or_introl Hlack))).
Defined.

(** A module without proxies cannot be loaded into, and still takes the
    flag of the document. *)
Lemma deserialize_not_atomic_witness :
  pugi.attribute
    (pugi.child (pugi.child (Some (Fixture.flag_only false)) "Representation")
                "ShowLine") "value" = Some "false"%string ∧
  (ruler_loaded (env := Fixture.env) Fixture.host (Fixture.fresh true)
                (Some (Fixture.flag_only false))).1 = false ∧
  m_showLine (Fixture.fresh true) = true ∧
  m_showLine (deserialize (env := Fixture.env) Fixture.host (Fixture.fresh true)
                (Some (Fixture.flag_only false))).2 = false ∧
  (deserialize (env := Fixture.env) Fixture.host (Fixture.fresh true)
               (Some (Fixture.flag_only false))).1.1 = false.
Proof.
  assert (Hv : pugi.attribute
    (pugi.child (pugi.child (Some (Fixture.flag_only false)) "Representation")
                "ShowLine") "value" = Some "false"%string) by reflexivity.
  assert (Hfail : (ruler_loaded (env := Fixture.env) Fixture.host
                     (Fixture.fresh true)
                     (Some (Fixture.flag_only false))).1 = false)
    by reflexivity.
  destruct (deserialize_not_atomic (env := Fixture.env) Fixture.host
              (Fixture.fresh true) (Some (Fixture.flag_only false))
              "false" Hv) as (Hshow & _ & Hshort & _).
  destruct (Hshort Hfail) as [Hres _].
  repeat split; assumption || reflexivity.
Defined.

(** C4: at the failing input.  The first end of the ruler is at
    [(-5, 0, 0)], outside the image; the lookup of the grid finds no
    sample and answers -1; the scalar array is then read at -1, and no
    defined signal is sent.  With both ends inside the image the values
    of the two samples are sent. *)
Theorem endPointsUpdated_outside_grid :
  GetPoint Fixture.dragged (m_rulerSource (Fixture.started true).2) "Point1"
    = Some (-5, 0, 0) ∧
  FindPoint Fixture.image (-5, 0, 0) = -1 ∧
  GetTuple1 [10; 20] (-1) = None ∧
  endPointsUpdated Fixture.dragged (Fixture.started true).2 = None ∧
  endPointsUpdated (Fixture.started true).1 (Fixture.started true).2
    = Some [newEndpointData 10 20; renderNeeded].
Proof. repeat split; vm_compute; reflexivity. Qed.



(** The values that travel in that run: both ends, the visibility and the
    flag all differ between the two modules before the load. *)
Example round_trip_hidden_values :
  saved_state Fixture.hidden.1 Fixture.hidden.2
    = (Some (PDouble [0; 0; 0]), Some (PDouble [0; 0; 0]),
       Some (PInt [0]), false) ∧
  saved_state Fixture.dragged (Fixture.started true).2
    = (Some (PDouble [-5; 0; 0]), Some (PDouble [1; 0; 0]),
       Some (PInt [1]), true) ∧
  visibility Fixture.hidden.1 Fixture.hidden.2 = Some false.
Proof. repeat split; vm_compute; reflexivity. Qed.

Example round_trip_values :
  let '(_, doc, _) :=
    serialize (env := Fixture.env) (Fixture.started false).1
              (Fixture.started false).2 Fixture.empty_node in
  let '(_, h2', m2') :=
    deserialize (env := Fixture.env) Fixture.dragged (Fixture.started true).2
                (Some doc) in
  saved_state Fixture.dragged (Fixture.started true).2
    = (Some (PDouble [-5; 0; 0]), Some (PDouble [1; 0; 0]),
       Some (PInt [1]), true) ∧
  saved_state h2' m2'
    = (Some (PDouble [0; 0; 0]), Some (PDouble [1; 0; 0]),
       Some (PInt [1]), false).
Proof. vm_compute. split; reflexivity. Qed.

(** ** More of the life of the module *)

Section Lifecycle.

Context {double : Type} {env : Environment double}.

Implicit Types (h : Host double) (m : ModuleRuler) (p : option positive).

(** What a refused [initialize] has done: nothing. *)
Lemma initialize_false h m data view h' m' :
  initialize h m data view = Some (false, h', m') →
  ∃ b, Module_initialize (base m) data view = (false, b) ∧
       h' = h ∧ m' = set_base b m.
Proof.
  unfold initialize.
  destruct (Module_initialize (base m) data view) as [ok b].
  destruct ok; simpl; [|intros [= <- <-]; eauto].
  destruct data as [d|]; simpl; [|discriminate].
  destruct (dataSources h !! d) as [source|]; simpl; [|discriminate].
  destruct (ds_output source) as [img|]; simpl; [|discriminate].
  unfold SetProperty. simpl. rewrite lookup_insert_eq. simpl.
  rewrite lookup_insert_eq. simpl.
  unfold Show. destruct (Show_accepts view); simpl; [|discriminate].
  unfold deref. simpl. rewrite lookup_insert_eq. simpl.
  destruct (updateUnits _ _); simpl; discriminate.
Qed.

(** What a successful [initialize] has done, in full. *)
Lemma initialize_steps h m data view h' m' :
  initialize h m data view = Some (true, h', m') →
  ∃ b d source img a src,
    Module_initialize (base m) data view = (true, b) ∧ data = Some d ∧
    dataSources h !! d = Some source ∧ ds_output source = Some img ∧
    Show_accepts view = true ∧
    dataSource b = Some a ∧ dataSources h !! a = Some src ∧
    m' = mkModuleRuler b (Some (next_proxy h)) (Some (Pos.succ (next_proxy h)))
                       (m_widget m) (m_showLine m) data ∧
    registered h' = {[Pos.succ (next_proxy h)]} ∪ ({[next_proxy h]} ∪ registered h) ∧
    next_proxy h' = Pos.succ (Pos.succ (next_proxy h)) ∧
    dataSources h' = dataSources h ∧
    proxies h' !! next_proxy h =
      Some (mkProxy
              (<["Point2"%string :=
                   PDouble [bounds1 (img_bounds img); bounds3 (img_bounds img);
                            bounds5 (img_bounds img)]]>
                 (<["Point1"%string :=
                      PDouble [bounds0 (img_bounds img); bounds2 (img_bounds img);
                               bounds4 (img_bounds img)]]> ∅)) "") ∧
    proxies h' !! Pos.succ (next_proxy h) =
      Some (mkProxy {["Visibility"%string := PInt [1]]}
                    ("%-#6.3g " +:+ ds_units src)) ∧
    ∀ q, q ≠ next_proxy h → q ≠ Pos.succ (next_proxy h) →
         proxies h' !! q = proxies h !! q.
Proof.
  unfold initialize.
  destruct (Module_initialize (base m) data view) as [ok b].
  destruct ok; simpl; [|discriminate].
  destruct data as [d|]; simpl; [|discriminate].
  destruct (dataSources h !! d) as [source|] eqn:Hd; simpl; [|discriminate].
  destruct (ds_output source) as [img|] eqn:Himg; simpl; [|discriminate].
  unfold SetProperty. simpl. rewrite lookup_insert_eq. simpl.
  rewrite lookup_insert_eq. simpl.
  unfold Show. destruct (Show_accepts view); simpl; [|discriminate].
  unfold deref. simpl. rewrite lookup_insert_eq. simpl.
  unfold updateUnits. simpl.
  destruct (dataSource b) as [a|] eqn:Ha; simpl; [|discriminate].
  destruct (dataSources h !! a) as [src|] eqn:Hsrc; simpl; [|discriminate].
  rewrite lookup_insert_eq. simpl.
  intros [= <- <-]. simpl.
  assert (Hne : next_proxy h ≠ Pos.succ (next_proxy h)) by lia.
  exists b, d, source, img, a, src.
  repeat split; try assumption; try reflexivity.
  - rewrite lookup_insert_ne, lookup_insert_ne, lookup_insert_eq by done.
    reflexivity.
  - rewrite lookup_insert_eq. reflexivity.
  - intros q Hq1 Hq2. rewrite !lookup_insert_ne by done. reflexivity.
Qed.

(** X1: [initialize] answers false only when the base contract refused,
    and has then created nothing: the host is as before and the module
    keeps its proxies, its widget and its flag.  The test on the two
    pointers at the end cannot answer false, since a null representation
    is dereferenced before it. *)
Theorem initialize_refused h m data view h' m' :
  initialize h m data view = Some (false, h', m') →
  (Module_initialize (base m) data view).1 = false ∧
  h' = h ∧
  m_rulerSource m' = m_rulerSource m ∧
  m_representation m' = m_representation m ∧
  m_showLine m' = m_showLine m ∧ m_widget m' = m_widget m.
Proof.
  intros Hinit. apply initialize_false in Hinit as (b & Hb & -> & ->).
  rewrite Hb. repeat split; reflexivity.
Qed.

(** X3: a successful [initialize] leaves the module with two distinct
    live proxies, both registered with the controller, a representation
    that is visible, and the change signal of the data connected. *)
Theorem initialize_registers h m data view h' m' :
  initialize h m data view = Some (true, h', m') →
  ∃ ruler rep : positive,
    m_rulerSource m' = Some ruler ∧ m_representation m' = Some rep ∧
    ruler ≠ rep ∧
    is_Some (deref h' (Some ruler)) ∧ is_Some (deref h' (Some rep)) ∧
    ruler ∈ registered h' ∧ rep ∈ registered h' ∧
    visibility h' m' = Some true ∧
    dataChanged_connected m' = data.
Proof.
  intros Hinit.
  apply initialize_steps in Hinit
    as (b & d & source & img & a & src & _ & _ & _ & _ & _ & _ & _
        & -> & Hreg & _ & _ & Hr & Hp & _).
  exists (next_proxy h), (Pos.succ (next_proxy h)). simpl.
  unfold deref, visibility, GetAsInt, deref. simpl. rewrite Hr, Hp, Hreg. simpl.
  rewrite lookup_singleton_eq.
  repeat split; eauto; try lia.
  - apply elem_of_union_r, elem_of_union_l, elem_of_singleton. reflexivity.
  - apply elem_of_union_l, elem_of_singleton. reflexivity.
Qed.

(** X4: after a successful [initialize] the label format of the
    representation is ["%-#6.3g "] followed by the units of the data
    source that the module answers for. *)
Theorem initialize_label h m data view h' m' :
  initialize h m data view = Some (true, h', m') →
  ∃ a src rep,
    dataSource (base m') = Some a ∧ dataSources h' !! a = Some src ∧
    deref h' (m_representation m') = Some rep ∧
    px_labelFormat rep = ("%-#6.3g " +:+ ds_units src)%string.
Proof.
  intros Hinit.
  apply initialize_steps in Hinit
    as (b & d & source & img & a & src & _ & _ & _ & _ & _ & Ha & Hsrc
        & -> & _ & _ & Hds & _ & Hp & _).
  exists a, src. eexists. simpl. rewrite Hds. unfold deref. simpl.
  repeat split; eauto.
Qed.

(** X5: a successful [initialize] leaves the data sources, the flag and
    the widget of the module, every registration made before and every
    proxy other than its own two as they were. *)
Theorem initialize_frame h m data view h' m' :
  initialize h m data view = Some (true, h', m') →
  dataSources h' = dataSources h ∧
  m_showLine m' = m_showLine m ∧ m_widget m' = m_widget m ∧
  (∀ q, q ∈ registered h → q ∈ registered h') ∧
  (∀ q, Some q ≠ m_rulerSource m' → Some q ≠ m_representation m' →
        deref h' (Some q) = deref h (Some q)).
Proof.
  intros Hinit.
  apply initialize_steps in Hinit
    as (b & d & source & img & a & src & _ & _ & _ & _ & _ & _ & _
        & -> & Hreg & _ & Hds & _ & _ & Hq).
  simpl. rewrite Hreg. repeat split; try assumption.
  - intros q Hin. apply elem_of_union_r, elem_of_union_r, Hin.
  - intros q H1 H2. unfold deref. simpl. apply Hq; congruence.
Qed.

(** X6: [finalize] after [initialize] gives the registry of the
    controller back as it was, when the two addresses were not registered
    before, and leaves both pointers null. *)
Theorem initialize_finalize_registry h m data view h' m' :
  initialize h m data view = Some (true, h', m') →
  next_proxy h ∉ registered h → Pos.succ (next_proxy h) ∉ registered h →
  ∃ h'' m'',
    finalize h' m' = (true, h'', m'') ∧
    registered h'' = registered h ∧
    m_rulerSource m'' = None ∧ m_representation m'' = None.
Proof.
  intros Hinit Hn1 Hn2.
  apply initialize_steps in Hinit
    as (b & d & source & img & a & src & _ & _ & _ & _ & _ & _ & _
        & -> & Hreg & _ & _ & _ & _ & _).
  eexists _, _. split; [reflexivity|]. simpl. rewrite Hreg.
  repeat split.
  apply set_eq. intros x.
  rewrite !elem_of_difference, !elem_of_union, !elem_of_singleton.
  split.
  - intros [[[?|[?|?]] ?] ?]; congruence.
  - intros Hx. repeat split; [auto|congruence|congruence].
Qed.


(** X7: of the members of the module [finalize] changes the two
    pointers only: the flag, the widget and the base members stay.  In
    the controller nothing is newly registered and every proxy other than
    the two of the module stays registered; the data sources stay. *)
Theorem finalize_frame h m :
  let '(_, h', m') := finalize h m in
  dataSources h' = dataSources h ∧
  m_showLine m' = m_showLine m ∧ m_widget m' = m_widget m ∧
  base m' = base m ∧
  (∀ a, a ∈ registered h' → a ∈ registered h) ∧
  (∀ a, a ∈ registered h → Some a ≠ m_rulerSource m →
        Some a ≠ m_representation m → a ∈ registered h').
Proof.
  simpl. unfold UnRegisterProxy.
  destruct (m_rulerSource m) as [r|], (m_representation m) as [q|]; simpl;
    repeat split; try reflexivity; intros a;
    rewrite ?elem_of_difference, ?elem_of_singleton;
    try tauto; intros; repeat split; try assumption; congruence.
Qed.

(** X8: on a finalized module [visibility] answers false, by its guard
    on the representation; [setVisibility], [updateUnits], [addToPanel]
    and [endPointsUpdated] have no guard and dereference a null pointer. *)
Theorem use_after_finalize h m :
  let '(_, h', m') := finalize h m in
  visibility h' m' = Some false ∧
  (∀ val, setVisibility h' m' val = None) ∧
  updateUnits h' m' = None ∧
  addToPanel h' m' = None ∧
  endPointsUpdated h' m' = None.
Proof.
  simpl. repeat split; try reflexivity.
  unfold updateUnits. simpl.
  destruct (dataSource (base m)) as [a|]; simpl; [|reflexivity].
  destruct (dataSources _ !! a); reflexivity.
Qed.

(** X9: when [updateUnits] runs through, the label format of the
    representation is ["%-#6.3g "] followed by the current units of the
    data source; no property, registration or data source changes, and a
    second run changes nothing more. *)
Theorem updateUnits_label h m h' :
  updateUnits h m = Some h' →
  (∃ a src rep,
     dataSource (base m) = Some a ∧ dataSources h !! a = Some src ∧
     deref h' (m_representation m) = Some rep ∧
     px_labelFormat rep = ("%-#6.3g " +:+ ds_units src)%string) ∧
  (∀ q nm, GetProperty h' q nm = GetProperty h q nm) ∧
  registered h' = registered h ∧ dataSources h' = dataSources h ∧
  updateUnits h' m = Some h'.
Proof.
  unfold updateUnits.
  destruct (dataSource (base m)) as [a|] eqn:Ha; [|discriminate]. simpl.
  destruct (dataSources h !! a) as [src|] eqn:Hsrc; [|discriminate]. simpl.
  destruct (m_representation m) as [r|] eqn:Hr; [|discriminate]. simpl.
  destruct (proxies h !! r) as [px|] eqn:Hpx; [|discriminate]. simpl.
  intros [= <-]. simpl. rewrite Hsrc. simpl.
  split; [|split; [|split; [|split]]]; try reflexivity.
  - exists a, src. eexists. unfold deref. simpl.
    rewrite lookup_insert_eq. repeat split; eauto.
  - intros [b|] nm; unfold GetProperty, deref; simpl; [|reflexivity].
    destruct (decide (b = r)) as [->|].
    + rewrite lookup_insert_eq, Hpx. reflexivity.
    + rewrite lookup_insert_ne by done. reflexivity.
  - rewrite lookup_insert_eq. simpl.
    unfold set_proxies. simpl. rewrite insert_insert_eq. reflexivity.
Qed.

(** [updateUnits] needs a live data source and a live representation. *)
Lemma updateUnits_defined h m :
  is_Some (updateUnits h m) ↔
  is_Some (dataSource (base m) ≫= (dataSources h !!.)) ∧
  is_Some (deref h (m_representation m)).
Proof.
  unfold updateUnits, deref.
  destruct (dataSource (base m)) as [a|]; simpl;
    [|split; [intros [? ?]|intros [[? ?] _]]; discriminate].
  destruct (dataSources h !! a) as [src|]; simpl;
    [|split; [intros [? ?]|intros [[? ?] _]]; discriminate].
  destruct (m_representation m) as [r|]; simpl;
    [|split; [intros [? ?]|intros [_ [? ?]]]; discriminate].
  destruct (proxies h !! r) as [px|]; simpl;
    [|split; [intros [? ?]|intros [_ [? ?]]]; discriminate].
  split; eauto.
Qed.

(** X10: [addToPanel] needs the ruler source; it leaves [m_showLine] and
    the two pointers as they were, whether or not the widget emits its
    signal, and the new widget is shown as [m_showLine] says with its
    signal connected. *)
Theorem addToPanel_keeps_showLine h m m' :
  addToPanel h m = Some m' →
  m_showLine m' = m_showLine m ∧
  m_widget m' = Some (mkLineWidget (m_showLine m) true) ∧
  m_rulerSource m' = m_rulerSource m ∧
  m_representation m' = m_representation m ∧
  is_Some (deref h (m_rulerSource m)).
Proof.
  unfold addToPanel.
  destruct (deref h (m_rulerSource m)) as [px|]; [|discriminate]. simpl.
  unfold setWidgetVisible. simpl.
  destruct (widgetVisibilityUpdated_emitted (m_showLine m) (m_showLine m));
    intros [= <-]; simpl; eauto.
Qed.

(** X11: after [prepareToRemoveFromPanel] a change of the widget's
    visibility, as at its tear down, leaves [m_showLine] alone; without
    it, a connected widget that emits its signal overwrites
    [m_showLine]. *)
Theorem prepareToRemoveFromPanel_protects m w val :
  m_widget m = Some w →
  (∃ w', m_widget (prepareToRemoveFromPanel m) = Some w' ∧
         widgetVisible w' = widgetVisible w ∧
         m_showLine (setWidgetVisible (prepareToRemoveFromPanel m) w' val)
           = m_showLine m) ∧
  (updateShowLine_connected w = true →
   widgetVisibilityUpdated_emitted (widgetVisible w) val = true →
   m_showLine (setWidgetVisible m w val) = val).
Proof.
  intros Hw. split.
  - unfold prepareToRemoveFromPanel. rewrite Hw. simpl.
    eexists. split; [reflexivity|]. split; reflexivity.
  - intros Hc He. unfold setWidgetVisible. rewrite Hc, He. reflexivity.
Qed.


Local Abbreviation getStringForProxy := (getStringForProxy (double := double)).

(** [setVisibility] on a live representation, in closed form. *)
Lemma setVisibility_result h m val r px :
  m_representation m = Some r → proxies h !! r = Some px →
  setVisibility h m val =
    Some (true,
          set_proxies
            <[r := mkProxy
                     (<["Visibility"%string := PInt [if val then 1 else 0]]>
                        (px_properties px)) (px_labelFormat px)]> h,
          match m_widget m with
          | Some w =>
              set_showLine (m_showLine m)
                (setWidgetVisible m w (val && m_showLine m))
          | None => m
          end).
Proof.
  intros Hr Hpx. unfold setVisibility, SetProperty. rewrite Hr. simpl.
  rewrite Hpx. reflexivity.
Qed.

(** [setVisibility] needs a live representation. *)
Lemma setVisibility_defined h m val :
  is_Some (setVisibility h m val) → is_Some (deref h (m_representation m)).
Proof.
  unfold setVisibility, SetProperty, deref.
  destruct (m_representation m) as [r|]; simpl; [|by intros [? ?]].
  destruct (proxies h !! r); simpl; [eauto|by intros [? ?]].
Qed.

(** X12: when [setVisibility val] returns, it answers true, the
    representation was live, the two pointers are unchanged, the widget
    (if any) is shown exactly when [val] and [m_showLine] both hold and
    keeps its connection, and apart from [Visibility] of the
    representation no property or registration has changed. *)
Theorem setVisibility_effects h m val ok h' m' :
  setVisibility h m val = Some (ok, h', m') →
  ok = true ∧
  is_Some (deref h (m_representation m)) ∧
  m_rulerSource m' = m_rulerSource m ∧
  m_representation m' = m_representation m ∧
  m_widget m' =
    (λ w, mkLineWidget (val && m_showLine m) (updateShowLine_connected w))
      <$> m_widget m ∧
  registered h' = registered h ∧
  (∀ q nm, ¬ (q = m_representation m ∧ nm = "Visibility"%string) →
           GetProperty h' q nm = GetProperty h q nm).
Proof.
  intros Hset.
  assert (Hlive : is_Some (deref h (m_representation m)))
    by (eapply setVisibility_defined; rewrite Hset; eauto).
  destruct Hlive as [px Hpx]. unfold deref in Hpx.
  destruct (m_representation m) as [r|] eqn:Hr; [|discriminate].
  simpl in Hpx.
  rewrite (setVisibility_result h m val r px Hr Hpx) in Hset.
  injection Hset as <- <- <-.
  split; [reflexivity|]. split; [unfold deref; simpl; rewrite Hpx; eauto|].
  assert (Hm : ∀ w,
    m_rulerSource (setWidgetVisible m w (val && m_showLine m)) = m_rulerSource m ∧
    m_representation (setWidgetVisible m w (val && m_showLine m)) = Some r ∧
    m_widget (setWidgetVisible m w (val && m_showLine m))
      = Some (mkLineWidget (val && m_showLine m) (updateShowLine_connected w))).
  { intros w. unfold setWidgetVisible.
    destruct (updateShowLine_connected w && _); simpl; auto. }
  assert (Hframe : ∀ q nm, ¬ (q = Some r ∧ nm = "Visibility"%string) →
    GetProperty
      (set_proxies
         <[r := mkProxy
                  (<["Visibility"%string := PInt [if val then 1 else 0]]>
                     (px_properties px)) (px_labelFormat px)]> h) q nm
    = GetProperty h q nm).
  { intros q nm Hq. unfold GetProperty, deref.
    destruct q as [b|]; simpl; [|done].
    destruct (decide (b = r)) as [->|].
    - rewrite lookup_insert_eq, Hpx. simpl.
      rewrite lookup_insert_ne; [done|]. intros <-. apply Hq; done.
    - rewrite lookup_insert_ne by done. done. }
  destruct (m_widget m) as [w|] eqn:Hw; simpl.
  - destruct (Hm w) as (-> & -> & ->).
    do 4 (split; [reflexivity|]). exact Hframe.
  - split; [reflexivity|]. split; [exact Hr|]. split; [exact Hw|].
    split; [reflexivity|]. exact Hframe.
Qed.

(** X13: a [setVisibility] leaves no trace for the next one: after
    [setVisibility v1], [setVisibility v2] gives the same answer, host and
    module as [setVisibility v2] alone. *)
Theorem setVisibility_last_wins h m v1 v2 :
  is_Some (deref h (m_representation m)) →
  ∃ h1 m1,
    setVisibility h m v1 = Some (true, h1, m1) ∧
    setVisibility h1 m1 v2 = setVisibility h m v2.
Proof.
  intros [px Hpx]. unfold deref in Hpx.
  destruct (m_representation m) as [r|] eqn:Hr; [|discriminate].
  simpl in Hpx.
  rewrite !(setVisibility_result h m _ r px Hr Hpx).
  eexists _, _. split; [reflexivity|].
  erewrite setVisibility_result;
    [| |simpl; apply lookup_insert_eq].
  - simpl. unfold set_proxies. simpl. rewrite !insert_insert_eq.
    do 3 f_equal.
    destruct m as [b rs rp [w|] s d]; simpl; [|reflexivity].
    unfold setWidgetVisible. simpl.
    destruct (updateShowLine_connected w); simpl;
      repeat (match goal with
              | |- context [widgetVisibilityUpdated_emitted ?a ?c] =>
                  destruct (widgetVisibilityUpdated_emitted a c)
              end; simpl); reflexivity.
  - destruct m as [b rs rp [w|] s d]; simpl in *; [|assumption].
    unfold setWidgetVisible. simpl.
    destruct (updateShowLine_connected w && _); simpl; assumption.
Qed.

(** X14: [deserialize] changes no member of the module but
    [m_showLine], whatever the helper does, and with a null node it
    leaves the module as it was. *)
Theorem deserialize_frame h m ns :
  m_rulerSource (deserialize h m ns).2 = m_rulerSource m ∧
  m_representation (deserialize h m ns).2 = m_representation m ∧
  m_widget (deserialize h m ns).2 = m_widget m ∧
  base (deserialize h m ns).2 = base m ∧
  dataChanged_connected (deserialize h m ns).2 = dataChanged_connected m ∧
  (deserialize h m None).2 = m.
Proof.
  unfold deserialize. simpl.
  destruct (tomviz_deserialize h (m_rulerSource m) (pugi.child ns "Ruler"))
    as [ok h1].
  destruct (tomviz_deserialize h (m_rulerSource m) None) as [ok' h1'].
  destruct (if ok then _ else _) as [success h2].
  destruct (if ok' then _ else _) as [success' h2']. simpl.
  destruct (pugi.child ns "Representation") as [rep|]; [|by repeat split].
  destruct (pugi.child (Some rep) "ShowLine") as [sl|]; [|by repeat split].
  destruct (pugi.attribute (Some sl) "value") as [v|]; by repeat split.
Qed.

(** X15: [getStringForProxy] warns exactly on the pointers that
    [isProxyPartOfModule] rejects, and on the accepted ones
    [getProxyForString] undoes it, also when the two pointers of the
    module are equal. *)
Theorem part_of_module_named m p :
  (isProxyPartOfModule m p = true ↔ (getStringForProxy m p).2 = []) ∧
  (isProxyPartOfModule m p = true →
   getProxyForString m (getStringForProxy m p).1 = p).
Proof.
  unfold isProxyPartOfModule, getStringForProxy, getProxyForString.
  destruct (decide (p = m_rulerSource m)) as [Hr|Hr].
  - rewrite (bool_decide_eq_true_2 _ Hr). simpl. split; [done|]. by intros _.
  - rewrite (bool_decide_eq_false_2 _ Hr). simpl.
    destruct (decide (p = m_representation m)) as [Hp|Hp].
    + rewrite (bool_decide_eq_true_2 _ Hp). simpl. split; [done|]. by intros _.
    + rewrite (bool_decide_eq_false_2 _ Hp). simpl. split; [|done].
      split; discriminate.
Qed.

(** X16: the null pointer is part of the module exactly when one of
    the two pointers is null, and is named ["Ruler"] without a warning
    when the ruler source is null, as after [finalize]. *)
Theorem null_proxy_part_of_module m :
  (isProxyPartOfModule m None = true ↔
   m_rulerSource m = None ∨ m_representation m = None) ∧
  (m_rulerSource m = None → getStringForProxy m None = ("Ruler"%string, [])).
Proof.
  unfold isProxyPartOfModule, getStringForProxy. split.
  - destruct (m_rulerSource m), (m_representation m); simpl; split;
      try done; try (intros [?|?]; done); auto.
  - intros ->. reflexivity.
Qed.

(** X17: ["Ruler"] is always mapped to a pointer named ["Ruler"];
    ["Representation"] comes back exactly when the two pointers differ,
    and comes back as ["Ruler"] when they are equal. *)
Theorem names_back m :
  getStringForProxy m (getProxyForString m "Ruler") = ("Ruler"%string, []) ∧
  (getStringForProxy m (getProxyForString m "Representation")
     = ("Representation"%string, [])
   ↔ m_rulerSource m ≠ m_representation m) ∧
  (m_rulerSource m = m_representation m →
   getStringForProxy m (getProxyForString m "Representation")
     = ("Ruler"%string, [])).
Proof.
  unfold getStringForProxy, getProxyForString. simpl.
  rewrite (bool_decide_eq_true_2 (m_rulerSource m = m_rulerSource m)) by done.
  split; [reflexivity|].
  destruct (decide (m_representation m = m_rulerSource m)) as [He|He].
  - rewrite (bool_decide_eq_true_2 _ He). split; [|done].
    split; [discriminate|]. intros Hn. destruct Hn. done.
  - rewrite (bool_decide_eq_false_2 _ He).
    rewrite (bool_decide_eq_true_2 (m_representation m = m_representation m))
      by done.
    split; [|intros Heq; destruct He; done].
    split; [intros _ Heq; destruct He; done|done].
Qed.

(** X18: [serialize] keeps the name, the attributes and the children of
    the node and appends exactly two children, whatever the outcome: the
    ruler node as the helper left it, then the representation node, which
    is empty (no [ShowLine]) when the helper failed on the ruler. *)
Theorem serialize_document_shape h m ns :
  let '(ok, doc, _) := serialize h m ns in
  pugi.name doc = pugi.name ns ∧
  pugi.attributes doc = pugi.attributes ns ∧
  ∃ rulerNode representationNode,
    pugi.children doc = pugi.children ns ++ [rulerNode; representationNode] ∧
    rulerNode = (ruler_saved h m).2 ∧
    ((ruler_saved h m).1 = false →
       representationNode = pugi.Element "Representation" [] []) ∧
    ((ruler_saved h m).1 = true →
       representationNode = (representation_saved h m).2).
Proof.
  unfold serialize, ruler_saved, representation_saved. simpl.
  destruct ns as [nm attrs kids].
  destruct (tomviz_serialize h (m_rulerSource m) _ _) as [[|] rulerNode]; simpl.
  - destruct (tomviz_serialize h (m_representation m) _ _)
      as [[|] representationNode]; simpl;
      do 2 (split; [reflexivity|]);
      eexists _, _; rewrite <- app_assoc; simpl;
      repeat split; try reflexivity; discriminate.
  - do 2 (split; [reflexivity|]).
    eexists _, _. rewrite <- app_assoc. simpl.
    repeat split; try reflexivity; discriminate.
Qed.

(** X21: right after [initialize], when the base class answers for the
    data source it was given, [endPointsUpdated] samples the image at the
    two corners of its bounds. *)
Theorem initialize_then_endPointsUpdated h m data view h' m' :
  initialize h m data view = Some (true, h', m') →
  dataSource (base m') = data →
  ∃ d source img,
    data = Some d ∧ dataSources h !! d = Some source ∧
    ds_output source = Some img ∧
    endPointsUpdated h' m' =
      (scalars ← img_scalars img;
       v1 ← GetTuple1 scalars
               (FindPoint img (bounds0 (img_bounds img), bounds2 (img_bounds img),
                               bounds4 (img_bounds img)));
       v2 ← GetTuple1 scalars
               (FindPoint img (bounds1 (img_bounds img), bounds3 (img_bounds img),
                               bounds5 (img_bounds img)));
       Some [newEndpointData v1 v2; renderNeeded]).
Proof.
  intros Hinit Hbase.
  apply initialize_steps in Hinit
    as (b & d & source & img & a & src & _ & -> & Hd & Himg & _ & _ & _
        & -> & _ & _ & Hds & Hr & _ & _).
  simpl in Hbase. exists d, source, img. repeat split; try assumption.
  unfold endPointsUpdated, GetPoint, GetProperty, deref. simpl.
  rewrite Hr. simpl.
  rewrite (lookup_insert_ne _ "Point2"%string "Point1"%string) by done.
  rewrite !lookup_insert_eq. simpl.
  rewrite Hbase. simpl. rewrite Hds, Hd. simpl. rewrite Himg. reflexivity.
Qed.

End Lifecycle.

(** ** More runs in the small world *)

(** [initialize] without a view: the base contract refuses. *)
Lemma initialize_refused_witness :
  initialize (env := Fixture.env) Fixture.host (Fixture.fresh true)
             Fixture.data None
  = Some (false, Fixture.host,
          set_base (mkModule Fixture.data None) (Fixture.fresh true)) ∧
  (Module_initialize (Environment := Fixture.env) (base (Fixture.fresh true))
                     Fixture.data None).1 = false ∧
  proxies Fixture.host = ∅.
Proof.
  assert (Hrun : initialize (env := Fixture.env) Fixture.host
                   (Fixture.fresh true) Fixture.data None
                 = Some (false, Fixture.host,
                         set_base (mkModule Fixture.data None)
                                  (Fixture.fresh true)))
    by reflexivity.
  split; [exact Hrun|].
  destruct (initialize_refused (env := Fixture.env) _ _ _ _ _ _ Hrun)
    as (Hbase & _).
  split; [exact Hbase|reflexivity].
Defined.

Lemma initialize_succeeds_witness :
  ∃ h' m',
    initialize (env := Fixture.env) Fixture.host (Fixture.fresh true)
               (Some 1%positive) Fixture.view = Some (true, h', m').
Proof.
  apply (initialize_succeeds (env := Fixture.env) Fixture.host
           (Fixture.fresh true) 1%positive Fixture.view
           (mkModule (Some 1%positive) Fixture.view) 1%positive
           (mkDataSource (Some Fixture.image) "nm") Fixture.image);
    try reflexivity.
  vm_compute. eauto.
Defined.

Lemma started_run :
  initialize (env := Fixture.env) Fixture.host (Fixture.fresh true)
             Fixture.data Fixture.view
  = Some (true, (Fixture.started true).1, (Fixture.started true).2).
Proof. vm_compute. reflexivity. Qed.

Lemma second_run :
  initialize (env := Fixture.env) (Fixture.started true).1 (Fixture.fresh false)
             Fixture.data Fixture.view
  = Some (true, Fixture.second.1, Fixture.second.2).
Proof. vm_compute. reflexivity. Qed.

Lemma initialize_registers_witness :
  ∃ ruler rep : positive,
    m_rulerSource (Fixture.started true).2 = Some ruler ∧
    m_representation (Fixture.started true).2 = Some rep ∧
    ruler ≠ rep ∧
    is_Some (deref (Fixture.started true).1 (Some ruler)) ∧
    is_Some (deref (Fixture.started true).1 (Some rep)) ∧
    ruler ∈ registered (Fixture.started true).1 ∧
    rep ∈ registered (Fixture.started true).1 ∧
    visibility (Fixture.started true).1 (Fixture.started true).2 = Some true ∧
    dataChanged_connected (Fixture.started true).2 = Fixture.data.
Proof.
  exact (initialize_registers (env := Fixture.env) _ _ _ _ _ _ started_run).
Defined.

Lemma initialize_label_witness :
  ∃ a src rep,
    dataSource (base (Fixture.started true).2) = Some a ∧
    dataSources (Fixture.started true).1 !! a = Some src ∧
    deref (Fixture.started true).1 (m_representation (Fixture.started true).2)
      = Some rep ∧
    px_labelFormat rep = ("%-#6.3g " +:+ ds_units src)%string.
Proof.
  exact (initialize_label (env := Fixture.env) _ _ _ _ _ _ started_run).
Defined.

Example initialize_label_nm :
  px_labelFormat <$>
    deref (Fixture.started true).1 (m_representation (Fixture.started true).2)
  = Some "%-#6.3g nm"%string.
Proof. vm_compute. reflexivity. Qed.

(** The second ruler leaves the first one alone. *)
Lemma initialize_frame_witness :
  m_rulerSource Fixture.second.2 = Some 3%positive ∧
  m_representation Fixture.second.2 = Some 4%positive ∧
  (∀ q, q ∈ registered (Fixture.started true).1 →
        q ∈ registered Fixture.second.1) ∧
  deref Fixture.second.1 (Some 1%positive)
    = deref (Fixture.started true).1 (Some 1%positive) ∧
  is_Some (deref (Fixture.started true).1 (Some 1%positive)).
Proof.
  destruct (initialize_frame (env := Fixture.env) _ _ _ _ _ _ second_run)
    as (_ & _ & _ & Hreg & Hq).
  do 2 (split; [reflexivity|]). split; [exact Hreg|].
  split; [apply Hq; vm_compute; discriminate|].
  vm_compute. eauto.
Defined.

Lemma initialize_finalize_registry_witness :
  ∃ h'' m'',
    finalize (Fixture.started true).1 (Fixture.started true).2
      = (true, h'', m'') ∧
    registered h'' = registered Fixture.host ∧
    m_rulerSource m'' = None ∧ m_representation m'' = None.
Proof.
  apply (initialize_finalize_registry (env := Fixture.env) _ _ _ _ _ _
           started_run);
    exact (not_elem_of_empty (C := gset positive) _).
Defined.

(** The units of the data change and [updateUnits] runs. *)
Lemma updateUnits_label_witness :
  ∃ h',
    updateUnits Fixture.rescaled (Fixture.started true).2 = Some h' ∧
    px_labelFormat <$> deref h' (m_representation (Fixture.started true).2)
      = Some "%-#6.3g um"%string ∧
    updateUnits h' (Fixture.started true).2 = Some h'.
Proof.
  destruct (updateUnits Fixture.rescaled (Fixture.started true).2)
    as [h'|] eqn:Hrun; [|vm_compute in Hrun; discriminate].
  exists h'. split; [reflexivity|].
  destruct (updateUnits_label _ _ _ Hrun)
    as ((a & src & rep & Ha & Hsrc & Hrep & Hlabel) & _ & _ & _ & Hagain).
  split; [|exact Hagain].
  rewrite Hrep. simpl. rewrite Hlabel.
  vm_compute in Ha. injection Ha as <-.
  vm_compute in Hsrc. injection Hsrc as <-. reflexivity.
Defined.

Lemma addToPanel_keeps_showLine_witness :
  addToPanel (env := Fixture.env) (Fixture.started false).1
             (Fixture.started false).2
  = Some (Fixture.with_panel false) ∧
  m_showLine (Fixture.with_panel false) = false ∧
  m_widget (Fixture.with_panel false) = Some (mkLineWidget false true).
Proof.
  assert (Hrun : addToPanel (env := Fixture.env) (Fixture.started false).1
                   (Fixture.started false).2
                 = Some (Fixture.with_panel false))
    by (vm_compute; reflexivity).
  split; [exact Hrun|].
  destruct (addToPanel_keeps_showLine (env := Fixture.env) _ _ _ Hrun)
    as (Hshow & Hwidget & _).
  split; [exact Hshow|exact Hwidget].
Defined.

(** The widget of a shown line is hidden at tear down. *)
Lemma prepareToRemoveFromPanel_protects_witness :
  m_widget (Fixture.with_panel true) = Some (mkLineWidget true true) ∧
  m_showLine (Fixture.with_panel true) = true ∧
  (∃ w', m_widget (prepareToRemoveFromPanel (Fixture.with_panel true))
           = Some w' ∧
         widgetVisible w' = true ∧
         m_showLine
           (setWidgetVisible (env := Fixture.env)
              (prepareToRemoveFromPanel (Fixture.with_panel true)) w' false)
         = true) ∧
  m_showLine
    (setWidgetVisible (env := Fixture.env) (Fixture.with_panel true)
                      (mkLineWidget true true) false) = false.
Proof.
  assert (Hw : m_widget (Fixture.with_panel true)
               = Some (mkLineWidget true true))
    by (vm_compute; reflexivity).
  destruct (prepareToRemoveFromPanel_protects (env := Fixture.env)
              (Fixture.with_panel true) (mkLineWidget true true) false Hw)
    as [Hsafe Hlost].
  split; [exact Hw|]. split; [vm_compute; reflexivity|].
  split; [exact Hsafe|]. apply Hlost; reflexivity.
Defined.

Lemma setVisibility_effects_witness :
  ∃ h' m',
    setVisibility (env := Fixture.env) (Fixture.started true).1
                  (Fixture.with_panel true) false = Some (true, h', m') ∧
    m_widget m' = Some (mkLineWidget false true) ∧
    GetProperty h' (m_rulerSource m') "Point2"
      = GetProperty (Fixture.started true).1
                    (m_rulerSource (Fixture.with_panel true)) "Point2" ∧
    registered h' = registered (Fixture.started true).1.
Proof.
  destruct (setVisibility (env := Fixture.env) (Fixture.started true).1
              (Fixture.with_panel true) false) as [[[ok h'] m']|] eqn:Hrun;
    [|vm_compute in Hrun; discriminate].
  destruct (setVisibility_effects (env := Fixture.env) _ _ _ _ _ _ Hrun)
    as (-> & _ & Hr & _ & Hw & Hreg & Hframe).
  exists h', m'. split; [reflexivity|]. split; [exact Hw|].
  split; [|exact Hreg].
  rewrite Hr. apply Hframe. intros [_ ?]; discriminate.
Defined.

Lemma setVisibility_last_wins_witness :
  is_Some (deref (Fixture.started true).1
                 (m_representation (Fixture.with_panel true))) ∧
  ∃ h1 m1,
    setVisibility (env := Fixture.env) (Fixture.started true).1
                  (Fixture.with_panel true) false = Some (true, h1, m1) ∧
    setVisibility (env := Fixture.env) h1 m1 true
    = setVisibility (env := Fixture.env) (Fixture.started true).1
                    (Fixture.with_panel true) true.
Proof.
  assert (Hrep : is_Some (deref (Fixture.started true).1
                   (m_representation (Fixture.with_panel true))))
    by (vm_compute; eauto).
  split; [exact Hrep|].
  exact (setVisibility_last_wins (env := Fixture.env) _ _ false true Hrep).
Defined.

Lemma endPointsUpdated_in_grid_witness :
  endPointsUpdated (Fixture.started true).1 (Fixture.started true).2
  = Some [newEndpointData 10 20; renderNeeded].
Proof.
  apply (endPointsUpdated_in_grid (Fixture.started true).1
           (Fixture.started true).2 (0, 0, 0) (1, 0, 0) 1%positive
           (mkDataSource (Some Fixture.image) "nm") Fixture.image [10; 20]);
    vm_compute; reflexivity || discriminate.
Defined.

Lemma endPointsUpdated_lookup_failed_witness :
  FindPoint Fixture.image (-5, 0, 0) < 0 ∧
  endPointsUpdated Fixture.dragged (Fixture.started true).2 = None.
Proof.
  assert (Hneg : FindPoint Fixture.image (-5, 0, 0) < 0) by reflexivity.
  split; [exact Hneg|].
  apply (endPointsUpdated_lookup_failed Fixture.dragged
           (Fixture.started true).2 (-5, 0, 0) (1, 0, 0) 1%positive
           (mkDataSource (Some Fixture.image) "nm") Fixture.image);
    try (left; exact Hneg); vm_compute; reflexivity.
Defined.

Lemma initialize_then_endPointsUpdated_witness :
  dataSource (base (Fixture.started true).2) = Fixture.data ∧
  ∃ d source img,
    Fixture.data = Some d ∧ dataSources Fixture.host !! d = Some source ∧
    ds_output source = Some img ∧
    endPointsUpdated (Fixture.started true).1 (Fixture.started true).2 =
      (scalars ← img_scalars img;
       v1 ← GetTuple1 scalars
               (FindPoint img (bounds0 (img_bounds img), bounds2 (img_bounds img),
                               bounds4 (img_bounds img)));
       v2 ← GetTuple1 scalars
               (FindPoint img (bounds1 (img_bounds img), bounds3 (img_bounds img),
                               bounds5 (img_bounds img)));
       Some [newEndpointData v1 v2; renderNeeded]).
Proof.
  assert (Hbase : dataSource (base (Fixture.started true).2) = Fixture.data)
    by reflexivity.
  split; [exact Hbase|].
  exact (initialize_then_endPointsUpdated (env := Fixture.env) _ _ _ _ _ _
           started_run Hbase).
Defined.
